(** * PyDDSBB demo applications: the session controller and its helpers

    A shallow embedding of [src/app_pyddsbb_minimize.py] (the 1-D global
    optimisation demo) and of [run_pyddsbb] from [src/app_pyddsbb.py] (the
    parametric fitting demo), followed by the properties of the session
    controller, of the objective adapter and of the problem construction.

    Python values are modelled as follows.
    - [float] is IEEE binary64, here Rocq's primitive [float]; Python's [==],
      [>] and [+] on floats are [PrimFloat.eqb], [PrimFloat.ltb] and
      [PrimFloat.add].
    - [int] is [Z]; [str] is [string]; [bool] is [bool].
    - Exceptions are values of [exn]; a computation that may raise and that
      mutates objects is a function [S -> Res A * S]: the state reached when an
      exception propagates keeps every mutation made before the raise.
    - Objects that are shared by reference (the generator built by
      [np.random.default_rng]) live in a store and are named by their address.
    - The third-party libraries (numpy's transcendental functions and random
      stream, the PyDDSBB solver) are interfaces, given as type classes; the
      properties of the controller hold for every solver behind the
      interface.
    - The class [PyDDSBB.DDSBBModel.Problem] is not among the sources.  The
      calls the applications make on it are recorded; the checks it makes on
      its arguments are modelled from the specification (section 4.2), apart
      from the record, in [add_objective_checked] and [add_variable_checked].
    - One interaction (a click, a changed widget) is one run of the script,
      [rerun]; [st.session_state] is the part of the state that survives from
      one run to the next.  The calls made on the solver library are recorded
      in a trace, each with the identity of the solver object it is made on. *)

From Stdlib Require Import ZArith Floats List String Bool Lia.
From stdpp Require Import base list strings.
Import ListNotations.

Set Warnings "-inexact-float".
Set Default Proof Using "Type".

#[local] Open Scope Z_scope.

(** ** Python numbers *)

(** [float(n)] for an [int]: the nearest binary64 value. *)
Definition float_of_Z (z : Z) : float :=
  SF2Prim (binary_normalize prec emax z 0 false).

(** [int(v)] for a [float]: truncation toward zero; Python raises on an
    infinity or a NaN, which is [None] here. *)
Definition int_of_float (v : float) : option Z :=
  match Prim2SF v with
  | S754_zero _ => Some 0
  | S754_finite s m e =>
      let a := match e with
               | Z0 => Z.pos m
               | Zpos k => Z.shiftl (Z.pos m) (Z.pos k)
               | Zneg k => Z.shiftr (Z.pos m) (Z.pos k)
               end in
      Some (if s then - a else a)
  | S754_infinity _ | S754_nan => None
  end.

(** ** Exceptions and the state-and-exception monad *)

Inductive exn : Type :=
  | IndexError
  | KeyError (key : string)
  | OverflowError
  | ReferenceError
  | AttributeError
  | LibraryError (msg : string).

Inductive Res (A : Type) : Type :=
  | Ok (a : A)
  | Raise (e : exn).
Arguments Ok {A} a.
Arguments Raise {A} e.

Definition M (S A : Type) : Type := S -> Res A * S.

Definition ret {S A} (a : A) : M S A := fun s => (Ok a, s).
Definition raise {S A} (e : exn) : M S A := fun s => (Raise e, s).
Definition bind {S A B} (c : M S A) (k : A -> M S B) : M S B :=
  fun s => match c s with
           | (Ok a, s') => k a s'
           | (Raise e, s') => (Raise e, s')
           end.
Definition get {S} : M S S := fun s => (Ok s, s).
Definition modify {S} (f : S -> S) : M S unit := fun s => (Ok tt, f s).

Declare Scope py_scope.
Delimit Scope py_scope with py.
Notation "x <- c ;; k" := (bind c (fun x => k))
  (at level 100, c at next level, right associativity) : py_scope.
Notation "c ;; k" := (bind c (fun _ => k))
  (at level 100, right associativity) : py_scope.
#[local] Open Scope py_scope.

(** ** numpy *)

(** What the applications use of numpy and cannot be computed here: two
    transcendental functions, the general power, and the stream of standard
    normal variates of [default_rng(seed)], indexed by position. *)
Class Numpy : Type := {
  np_sin : float -> float;
  np_exp : float -> float;
  np_power : float -> Z -> float;
  standard_normal : Z -> nat -> float;
}.

(** A [Generator] object: the seed it was built from and how many variates
    have been drawn from it. *)
Record Generator : Type := { gen_seed : Z; gen_drawn : nat }.

Definition addr : Type := nat.

(** What a call into a library can observe and change: wall-clock time passes
    and generators advance.  [wall t] is the reading of [time.time()] at the
    [t]-th instant. *)
Record Env : Type := {
  wall : nat -> float;
  ticks : nat;
  rngs : list Generator;
}.

Definition set_ticks (t : nat) (e : Env) : Env :=
  {| wall := wall e; ticks := t; rngs := rngs e |}.
Definition set_rngs (g : list Generator) (e : Env) : Env :=
  {| wall := wall e; ticks := ticks e; rngs := g |}.

(** [time.time()] *)
Definition time_time : M Env float :=
  fun e => (Ok (wall e (ticks e)), set_ticks (S (ticks e)) e).

(** [np.random.default_rng(seed)]: a new generator object at the start of
    its stream. *)
Definition default_rng (seed : Z) : M Env addr :=
  fun e => (Ok (length (rngs e)),
            set_rngs (rngs e ++ [{| gen_seed := seed; gen_drawn := 0 |}]) e).

(** [rng.normal(loc, scale)] *)
Definition rng_normal `{Numpy} (rng : addr) (loc scale : float) : M Env float :=
  fun e => match rngs e !! rng with
           | Some g =>
               (Ok (loc + scale * standard_normal (gen_seed g) (gen_drawn g))%float,
                set_rngs (<[rng := {| gen_seed := gen_seed g;
                                      gen_drawn := S (gen_drawn g) |}]> (rngs e)) e)
           | None => (Raise ReferenceError, e)
           end.

(** ** Functions to optimize *)

Section Functions.
Context `{Numpy}.
#[local] Open Scope float_scope.

Definition np_pi : float := 3.141592653589793.

Definition f_sin2pix (x : float) : float := x * np_sin (2 * np_pi * x).
Definition f_sin_combo (x : float) : float :=
  np_sin (3 * x) + 0.5 * np_sin (7 * x).
Definition f_poly (x : float) : float :=
  np_power x 3 - 0.5 * np_power x 2 + 0.2 * x.
Definition f_gauss_bump (x : float) : float :=
  np_exp (- (np_power (x - 0.2) 2) / 0.01)
  - 0.7 * np_exp (- (np_power (x - 0.75) 2) / 0.02).
Definition f_piecewise (x : float) : float := abs (x - 0.5).
Definition f_rational (x : float) : float :=
  (np_power x 2 + 10 * x) / (1 + np_power x 2).
Definition f_linear (x : float) : float := 2 * x - 1.

Definition FUNCTIONS : list (string * (float -> float)) :=
  [ ("x * Sin(sin(2πx))"%string, f_sin2pix);
    ("Sine (sin(3x) + 0.5 sin(7x))"%string, f_sin_combo);
    ("Polynomial (x^3 - 0.5x^2 + 0.2x)"%string, f_poly);
    ("Gaussian bump"%string, f_gauss_bump);
    ("Piecewise (abs(x - 0.5))"%string, f_piecewise);
    ("Rational (x^2 + 10x) / (1 + x^2)"%string, f_rational);
    ("Linear-ish (2x - 1)"%string, f_linear) ].

(** [FUNCTIONS[kind]] *)
Fixpoint getitem {V} (d : list (string * V)) (k : string) : option V :=
  match d with
  | [] => None
  | (k', v) :: d' => if String.eqb k k' then Some v else getitem d' k
  end.

(** ** Helpers *)

(** [f(np.array([x]))]: the test functions act elementwise on arrays. *)
Definition np_apply (f : float -> float) (a : list float) : list float :=
  map f a.

(** [noisy_eval(f, x, noise_std, rng)].  Every function of [FUNCTIONS]
    returns an array on an array, so the value is
    [float(f(np.array([x]))[0])]. *)
Definition noisy_eval (f : float -> float) (x : float) (noise_std : float)
    (rng : addr) : M Env float :=
  match np_apply f [x] with
  | [] => raise IndexError
  | v :: _ =>
      if (0 <? noise_std) then
        d <- rng_normal rng 0.0 noise_std ;;
        ret (v + d)
      else ret v
  end.

(** The function [objective] of the minimisation demo together with the
    module globals it reads when called: [f], [noise_std], [rng].  Every
    interaction runs the script from the top in a namespace of its own, so
    an [objective] defined in one run of the script keeps reading the
    objects bound in that run; the generator is an object with state and is
    held by its address. *)
Record Objective : Type := {
  obj_f : float -> float;
  obj_noise_std : float;
  obj_rng : addr;
}.

(** [objective(x_arr)] *)
Definition objective (o : Objective) (x_arr : list float) : M Env float :=
  match x_arr with
  | [] => raise IndexError
  | xval :: _ => noisy_eval (obj_f o) xval (obj_noise_std o) (obj_rng o)
  end.
End Functions.

(** ** The problem object of PyDDSBB

    [PyDDSBB.DDSBBModel.Problem()] is built by the applications and handed to
    the solver.  The class is not among the sources.  No code of the
    applications inspects the object; here it is the record of the calls the
    applications make on it: the objective with its sense, and the bounds of
    the variables in the order they were added.  This record has no error
    path: what the object itself checks when it is called is not decided by
    the applications, and is modelled apart, from the specification, in
    [add_objective_checked] and [add_variable_checked] below. *)

Record Problem (O : Type) : Type := {
  prob_objective : option (O * string);
  prob_variables : list (float * float);
}.
Arguments prob_objective {O} p.
Arguments prob_variables {O} p.

Definition Problem_new {O} : Problem O :=
  {| prob_objective := None; prob_variables := [] |}.
Definition add_objective {O} (m : Problem O) (obj : O) (sense : string) : Problem O :=
  {| prob_objective := Some (obj, sense); prob_variables := prob_variables m |}.
Definition add_variable {O} (m : Problem O) (lb ub : float) : Problem O :=
  {| prob_objective := prob_objective m;
     prob_variables := prob_variables m ++ [(lb, ub)] |}.

(** ** Configuration *)

(** The dictionary [stop_option]. *)
Module StopOption.
Record t : Type := {
  absolute_tolerance : float;
  relative_tolerance : float;
  minimum_bound : float;
  sampling_limit : Z;
  time_limit : float;
}.

(** [==] on two such dictionaries. *)
Definition eqb (a b : t) : bool :=
  PrimFloat.eqb (absolute_tolerance a) (absolute_tolerance b)
  && PrimFloat.eqb (relative_tolerance a) (relative_tolerance b)
  && PrimFloat.eqb (minimum_bound a) (minimum_bound b)
  && Z.eqb (sampling_limit a) (sampling_limit b)
  && PrimFloat.eqb (time_limit a) (time_limit b).

(** [d = dict(a); d["sampling_limit"] = n] *)
Definition with_sampling_limit (a : t) (n : Z) : t :=
  {| absolute_tolerance := absolute_tolerance a;
     relative_tolerance := relative_tolerance a;
     minimum_bound := minimum_bound a;
     sampling_limit := n;
     time_limit := time_limit a |}.
End StopOption.

(** The dictionary [cfg]. *)
Module Cfg.
Record t : Type := {
  kind : string;
  x_min : float;
  x_max : float;
  seed : Z;
  noise_std : float;
  n_init : Z;
  split_method : string;
  variable_selection : string;
  multifidelity : bool;
  stop_option : StopOption.t;
  sense : string;
}.

(** [==] on two such dictionaries: every key compared with [==]. *)
Definition eqb (a b : t) : bool :=
  String.eqb (kind a) (kind b)
  && PrimFloat.eqb (x_min a) (x_min b)
  && PrimFloat.eqb (x_max a) (x_max b)
  && Z.eqb (seed a) (seed b)
  && PrimFloat.eqb (noise_std a) (noise_std b)
  && Z.eqb (n_init a) (n_init b)
  && String.eqb (split_method a) (split_method b)
  && String.eqb (variable_selection a) (variable_selection b)
  && Bool.eqb (multifidelity a) (multifidelity b)
  && StopOption.eqb (stop_option a) (stop_option b)
  && String.eqb (sense a) (sense b).
End Cfg.

(** [cfg != last_cfg], where [last_cfg] is [None] or a dictionary. *)
Definition cfg_ne (c : Cfg.t) (last : option Cfg.t) : bool :=
  match last with
  | None => true
  | Some c' => negb (Cfg.eqb c c')
  end.

(** The values of the sidebar widgets during one run of the script. *)
Record Widgets : Type := {
  kind : string;
  x_min : float;
  x_max : float;
  seed : Z;
  noise_std : float;
  n_init : Z;
  split_method : string;
  variable_selection : string;
  multifidelity : bool;
  sense : string;
  abs_tol : float;
  rel_tol : float;
  min_bound : float;
  sampling_limit : Z;
  time_limit : float;
  auto_run : bool;
  run_btn : bool;
  resume_btn : bool;
}.

Definition stop_option (w : Widgets) : StopOption.t :=
  {| StopOption.absolute_tolerance := abs_tol w;
     StopOption.relative_tolerance := rel_tol w;
     StopOption.minimum_bound := min_bound w;
     StopOption.sampling_limit := sampling_limit w;
     StopOption.time_limit := time_limit w |}.

Definition cfg (w : Widgets) : Cfg.t :=
  {| Cfg.kind := kind w; Cfg.x_min := x_min w; Cfg.x_max := x_max w;
     Cfg.seed := seed w; Cfg.noise_std := noise_std w; Cfg.n_init := n_init w;
     Cfg.split_method := split_method w;
     Cfg.variable_selection := variable_selection w;
     Cfg.multifidelity := multifidelity w;
     Cfg.stop_option := stop_option w; Cfg.sense := sense w |}.

(** ** The solver of PyDDSBB

    The interface the applications use: the constructor [PyDDSBB.DDSBB], the
    blocking calls [optimize] and [resume], which mutate the solver object,
    let time pass, evaluate the objective and may raise, and the two
    accessors.  [sense] is [None] where the caller leaves the keyword out. *)
Class PyDDSBB (O : Type) : Type := {
  handle : Type;
  DDSBB : Z -> string -> string -> bool -> StopOption.t -> option string -> handle;
  optimize : Problem O -> M (handle * Env) unit;
  resume : StopOption.t -> M (handle * Env) unit;
  get_optimum : handle -> Res float;
  get_optimizer : handle -> Res (list float);
}.

(** The calls made on the library, in order, each with the identity of the
    solver object it is made on. *)
Inductive Event (O : Type) : Type :=
  | CallDDSBB (id : nat) (n_init : Z) (split_method variable_selection : string)
      (multifidelity : bool) (stop : StopOption.t) (sense : option string)
  | CallOptimize (id : nat) (model : Problem O)
  | CallResume (id : nat) (stop : StopOption.t).
Arguments CallDDSBB {O}.
Arguments CallOptimize {O}.
Arguments CallResume {O}.

Definition event_id {O} (ev : Event O) : nat :=
  match ev with
  | CallDDSBB i _ _ _ _ _ _ | CallOptimize i _ | CallResume i _ => i
  end.

(** [result]: what the script shows as the optimum. *)
Record Result : Type := { xopt : float; yopt : float; elapsed : float }.

(** ** The minimisation demo: one run of the script per interaction *)

Section Minimize.
Context `{Numpy} `{PyDDSBB Objective}.

(** [st.session_state]: the three keys the script keeps.  The held solver
    is an object; it is kept with its identity. *)
Record Session : Type := {
  solver : option (nat * handle);
  last_cfg : option Cfg.t;
  result : option Result;
}.

(** The session, the environment, the identity of the next object the
    library constructs, and the calls made so far. *)
Record World : Type := {
  session : Session;
  env : Env;
  next_id : nat;
  trace : list (Event Objective);
}.

(** The session at its start: the script sets each missing key to [None]. *)
Definition session_init : Session :=
  {| solver := None; last_cfg := None; result := None |}.

Definition set_solver (s : option (nat * handle)) : M World unit :=
  modify (fun W =>
    {| session := {| solver := s; last_cfg := last_cfg (session W);
                     result := result (session W) |};
       env := env W; next_id := next_id W; trace := trace W |}).
Definition set_last_cfg (c : option Cfg.t) : M World unit :=
  modify (fun W =>
    {| session := {| solver := solver (session W); last_cfg := c;
                     result := result (session W) |};
       env := env W; next_id := next_id W; trace := trace W |}).
Definition set_result (r : option Result) : M World unit :=
  modify (fun W =>
    {| session := {| solver := solver (session W);
                     last_cfg := last_cfg (session W); result := r |};
       env := env W; next_id := next_id W; trace := trace W |}).

(** A computation on the environment, run in the world. *)
Definition in_env {A} (c : M Env A) : M World A :=
  fun W => let (r, e) := c (env W) in
           (r, {| session := session W; env := e;
                  next_id := next_id W; trace := trace W |}).

(** [st.session_state.solver.<method>(...)]: a call that mutates the held
    solver; on [None] the attribute access raises. *)
Definition solver_call {A} (ev : nat -> Event Objective)
    (c : M (handle * Env) A) : M World A :=
  fun W => match solver (session W) with
           | None => (Raise AttributeError, W)
           | Some (i, h) =>
               let '(r, (h', e')) := c (h, env W) in
               (r, {| session := {| solver := Some (i, h');
                                    last_cfg := last_cfg (session W);
                                    result := result (session W) |};
                      env := e'; next_id := next_id W;
                      trace := trace W ++ [ev i] |})
           end.

(** An accessor of the held solver. *)
Definition solver_read {A} (f : handle -> Res A) : M World A :=
  fun W => match solver (session W) with
           | None => (Raise AttributeError, W)
           | Some (_, h) => (f h, W)
           end.

(** [new_solver()] *)
Definition new_solver (w : Widgets) : M World (nat * handle) :=
  fun W =>
    let i := next_id W in
    (Ok (i, DDSBB (n_init w) (split_method w) (variable_selection w)
              (multifidelity w) (stop_option w) (Some (sense w))),
     {| session := session W; env := env W; next_id := S i;
        trace := trace W ++ [CallDDSBB i (n_init w) (split_method w)
                               (variable_selection w) (multifidelity w)
                               (stop_option w) (Some (sense w))] |}).

(** [int(max(100, 0.5 * sampling_limit))]: [max] keeps its first argument
    unless the second is greater. *)
Definition extra_sampling (sampling_limit : Z) : option Z :=
  let v := (0.5 * float_of_Z sampling_limit)%float in
  if (float_of_Z 100 <? v)%float then int_of_float v else Some 100.

(** [new_stop]: a copy of [stop_option] with the sampling limit raised. *)
Definition new_stop (w : Widgets) : option StopOption.t :=
  match extra_sampling (sampling_limit w) with
  | Some extra =>
      Some (StopOption.with_sampling_limit (stop_option w)
              (StopOption.sampling_limit (stop_option w) + extra))
  | None => None
  end.

(** The model the script builds on every run. *)
Definition build_model (w : Widgets) (f : float -> float) (rng : addr)
    : Problem Objective :=
  let obj := {| obj_f := f; obj_noise_std := noise_std w; obj_rng := rng |} in
  add_variable (add_objective Problem_new obj (sense w)) (x_min w) (x_max w).

(** [x[0]] *)
Definition item0 {S A} (l : list A) : M S A :=
  match l with
  | [] => raise IndexError
  | a :: _ => ret a
  end.

(** The block guarded by [should_run]: the run operation. *)
Definition run_block (w : Widgets) (model : Problem Objective) : M World unit :=
  set_last_cfg (Some (cfg w)) ;;
  start <- in_env time_time ;;
  solver_call (fun i => CallOptimize i model) (optimize model) ;;
  t <- in_env time_time ;;
  let elapsed := (t - start)%float in
  yopt <- solver_read get_optimum ;;
  xs <- solver_read get_optimizer ;;
  xopt <- item0 xs ;;
  set_result (Some {| xopt := xopt; yopt := yopt; elapsed := elapsed |}).

(** The three-way decision; its value is [should_run]. *)
Definition decide_run (w : Widgets) : M World bool :=
  W <- get ;;
  if run_btn w then
    s <- new_solver w ;; set_solver (Some s) ;; ret true
  else if auto_run w && cfg_ne (cfg w) (last_cfg (session W)) then
    s <- new_solver w ;; set_solver (Some s) ;; ret true
  else if resume_btn w && bool_decide (is_Some (solver (session W))) then
    match new_stop w with
    | None => raise OverflowError
    | Some stop =>
        solver_call (fun i => CallResume i stop) (resume stop) ;; ret false
    end
  else ret false.

(** One run of the script, from the lookup of the chosen function to the
    end of the run block. *)
Definition rerun (w : Widgets) : M World unit :=
  f <- match getitem FUNCTIONS (kind w) with
       | Some f => ret f
       | None => raise (KeyError (kind w))
       end ;;
  rng <- in_env (default_rng (seed w)) ;;
  let model := build_model w f rng in
  should_run <- decide_run w ;;
  W <- get ;;
  if should_run && bool_decide (is_Some (solver (session W))) then
    run_block w model
  else ret tt.
End Minimize.

(** ** The fitting demo: [run_pyddsbb] *)

(** The closure [objective] of [run_pyddsbb] with what it captures. *)
Record FitObjective : Type := {
  fit_X : list float;
  fit_y : list float;
  fit_model_fn : list float -> list float -> list float;
}.

Record FitResult : Type := {
  theta_opt : list float;
  obj_opt : float;
  train_time : float;
}.

Section Fit.
Context `{PyDDSBB FitObjective}.

(** The loop [for (lb, ub) in var_bounds: model.add_variable(lb, ub)]. *)
Definition add_variables {O} (model : Problem O) (var_bounds : list (float * float))
    : Problem O :=
  fold_left (fun m b => add_variable m (fst b) (snd b)) var_bounds model.

Definition fit_model (X y : list float)
    (model_fn : list float -> list float -> list float)
    (var_bounds : list (float * float)) : Problem FitObjective :=
  add_variables
    (add_objective Problem_new
       {| fit_X := X; fit_y := y; fit_model_fn := model_fn |} "minimize")
    var_bounds.

(** [run_pyddsbb]; the solver object is local to the call.  The state is
    the environment and the calls made on the library. *)
Definition run_pyddsbb (X y : list float)
    (model_fn : list float -> list float -> list float)
    (var_bounds : list (float * float)) (n_init : Z)
    (split_method variable_selection : string) (multifidelity : bool)
    (stop : StopOption.t) : M (Env * list (Event FitObjective)) FitResult :=
  fun '(e, tr) =>
    let model := fit_model X y model_fn var_bounds in
    let solver :=
      DDSBB n_init split_method variable_selection multifidelity stop None in
    let tr := tr ++ [CallDDSBB 0%nat n_init split_method variable_selection
                       multifidelity stop None] in
    let '(start, e) := (wall e (ticks e), set_ticks (S (ticks e)) e) in
    let '(r, (solver, e)) := optimize model (solver, e) in
    let tr := tr ++ [CallOptimize 0%nat model] in
    match r with
    | Raise ex => (Raise ex, (e, tr))
    | Ok _ =>
        match get_optimizer solver with
        | Raise ex => (Raise ex, (e, tr))
        | Ok theta =>
            match get_optimum solver with
            | Raise ex => (Raise ex, (e, tr))
            | Ok obj =>
                (Ok {| theta_opt := theta; obj_opt := obj;
                       train_time := (wall e (ticks e) - start)%float |},
                 (set_ticks (S (ticks e)) e, tr))
            end
        end
    end.
End Fit.

(** ** The checks of the problem object

    The applications build the problem before they construct a solver:
    lines 118-120 of the minimisation demo run on every rerun, ahead of the
    controller, and lines 80-83 of [run_pyddsbb] ahead of [PyDDSBB.DDSBB].
    An exception raised by [add_objective] or [add_variable] therefore ends
    the rerun, or the call of [run_pyddsbb], before any call on a solver. *)

(** Modelled from the spec: the error with which the construction of a
    problem descriptor fails (section 4.2); PyDDSBB's [Problem] class, which
    would raise it, is not among the sources. *)
Definition InvalidDomain : exn := LibraryError "InvalidDomain".

(** Modelled from the spec: the failure of the construction on a sense
    outside the enumerated set; section 4.2 gives this failure no name. *)
Definition InvalidSense : exn := LibraryError "InvalidSense".

(** Modelled from the spec: the check on the bounds of one variable made by
    [Problem.add_variable], section 4.2: "validates domain bounds (lower
    finite < upper finite)". *)
Definition valid_bounds (lb ub : float) : bool :=
  is_finite lb && is_finite ub && (lb <? ub)%float.

(** Modelled from the spec: the check on the sense made by
    [Problem.add_objective], section 4.2: "one of a fixed enumerated set:
    minimize, maximize". *)
Definition valid_sense (sense : string) : bool :=
  String.eqb sense "minimize" || String.eqb sense "maximize".

(** Modelled from the spec: [Problem.add_objective(callable, sense)] of
    PyDDSBB with the check of section 4.2; on a valid sense it records the
    call as [add_objective] does. *)
Definition add_objective_checked {S O} (m : Problem O) (obj : O)
    (sense : string) : M S (Problem O) :=
  if valid_sense sense then ret (add_objective m obj sense)
  else raise InvalidSense.

(** Modelled from the spec: [Problem.add_variable(lower, upper)] of PyDDSBB
    with the check of section 4.2, "construction fails with an InvalidDomain
    error if bounds are non-finite or inverted"; on valid bounds it records
    the call as [add_variable] does. *)
Definition add_variable_checked {S O} (m : Problem O) (lb ub : float)
    : M S (Problem O) :=
  if valid_bounds lb ub then ret (add_variable m lb ub)
  else raise InvalidDomain.

(** The loop [for (lb, ub) in var_bounds: model.add_variable(lb, ub)] of
    [run_pyddsbb] over the checked call: it stops at the first pair that is
    refused. *)
Fixpoint add_variables_checked {S O} (m : Problem O)
    (var_bounds : list (float * float)) : M S (Problem O) :=
  match var_bounds with
  | [] => ret m
  | (lb, ub) :: rest =>
      m' <- add_variable_checked m lb ub ;;
      add_variables_checked m' rest
  end.

Section CheckedMinimize.
Context `{Numpy} `{PyDDSBB Objective}.

(** Lines 118-120 of the minimisation demo over the checked calls. *)
Definition build_model_checked (w : Widgets) (f : float -> float) (rng : addr)
    : M World (Problem Objective) :=
  let obj := {| obj_f := f; obj_noise_std := noise_std w; obj_rng := rng |} in
  m <- add_objective_checked Problem_new obj (sense w) ;;
  add_variable_checked m (x_min w) (x_max w).

(** One run of the script, as [rerun], with the problem built by the checked
    calls. *)
Definition rerun_checked (w : Widgets) : M World unit :=
  f <- match getitem FUNCTIONS (kind w) with
       | Some f => ret f
       | None => raise (KeyError (kind w))
       end ;;
  rng <- in_env (default_rng (seed w)) ;;
  model <- build_model_checked w f rng ;;
  should_run <- decide_run w ;;
  W <- get ;;
  if should_run && bool_decide (is_Some (solver (session W))) then
    run_block w model
  else ret tt.
End CheckedMinimize.

Section CheckedFit.
Context `{PyDDSBB FitObjective}.

(** Lines 80-83 of [run_pyddsbb] over the checked calls. *)
Definition fit_model_checked {S} (X y : list float)
    (model_fn : list float -> list float -> list float)
    (var_bounds : list (float * float)) : M S (Problem FitObjective) :=
  m <- add_objective_checked Problem_new
         {| fit_X := X; fit_y := y; fit_model_fn := model_fn |} "minimize" ;;
  add_variables_checked m var_bounds.

(** [run_pyddsbb] with the problem built by the checked calls: when the
    construction raises, the function is left at that point; otherwise it
    goes on as [run_pyddsbb] does. *)
Definition run_pyddsbb_checked (X y : list float)
    (model_fn : list float -> list float -> list float)
    (var_bounds : list (float * float)) (n_init : Z)
    (split_method variable_selection : string) (multifidelity : bool)
    (stop : StopOption.t) : M (Env * list (Event FitObjective)) FitResult :=
  fit_model_checked X y model_fn var_bounds ;;
  run_pyddsbb X y model_fn var_bounds n_init split_method variable_selection
    multifidelity stop.
End CheckedFit.

(** ** Solvers that sample the objective

    [resume] receives the new stopping criteria and nothing else, so the only
    objective a solver can evaluate while resuming is the one of the problem
    it was given by [optimize].  A sampling solver keeps that problem, asks its
    search for the next point, evaluates the objective there and reports the
    value back, until the search stops or the sampling limit is reached.  The
    search itself (what to sample, what the incumbent is) is left open. *)

Record Sampler : Type := {
  search : Type;
  search_init : Z -> string -> string -> bool -> option string -> search;
  propose : search -> list (float * float) -> option (list float);
  observe : search -> list float -> float -> search;
  incumbent : search -> option (list float * float);
}.

Section Sampling.
Context `{Numpy} (alg : Sampler).

Record SamplerHandle : Type := {
  h_search : search alg;
  h_stop : StopOption.t;
  h_model : option (Problem Objective);
  h_samples : nat;
}.

Definition sampler_new (n_init : Z) (split_method variable_selection : string)
    (multifidelity : bool) (stop : StopOption.t) (sense : option string)
    : SamplerHandle :=
  {| h_search := search_init alg n_init split_method variable_selection
                   multifidelity sense;
     h_stop := stop; h_model := None; h_samples := 0 |}.

(** One sample: the objective is evaluated in the environment, the value is
    reported to the search, and one instant passes. *)
Definition sample_once (obj : Objective) (x : list float)
    : M (SamplerHandle * Env) unit :=
  fun '(h, e) =>
    match objective obj x e with
    | (Raise ex, e') => (Raise ex, (h, e'))
    | (Ok y, e') =>
        (Ok tt, ({| h_search := observe alg (h_search h) x y;
                    h_stop := h_stop h; h_model := h_model h;
                    h_samples := S (h_samples h) |},
                 set_ticks (S (ticks e')) e'))
    end.

Fixpoint sample_loop (budget : nat) (obj : Objective)
    (bounds : list (float * float)) : M (SamplerHandle * Env) unit :=
  match budget with
  | O => ret tt
  | S budget' =>
      fun '(h, e) =>
        match propose alg (h_search h) bounds with
        | None => (Ok tt, (h, e))
        | Some x =>
            (sample_once obj x ;; sample_loop budget' obj bounds) (h, e)
        end
  end.

(** Samples still allowed by the sampling limit. *)
Definition budget_left (h : SamplerHandle) : nat :=
  Z.to_nat (StopOption.sampling_limit (h_stop h) - Z.of_nat (h_samples h)).

Definition sampler_search : M (SamplerHandle * Env) unit :=
  fun '(h, e) =>
    match h_model h with
    | Some {| prob_objective := Some (obj, _); prob_variables := bounds |} =>
        sample_loop (budget_left h) obj bounds (h, e)
    | _ => (Raise (LibraryError "no problem to solve"), (h, e))
    end.

Definition sampler_optimize (model : Problem Objective)
    : M (SamplerHandle * Env) unit :=
  modify (fun '(h, e) =>
    ({| h_search := h_search h; h_stop := h_stop h; h_model := Some model;
        h_samples := h_samples h |}, e)) ;;
  sampler_search.

Definition sampler_resume (stop : StopOption.t) : M (SamplerHandle * Env) unit :=
  modify (fun '(h, e) =>
    ({| h_search := h_search h; h_stop := stop; h_model := h_model h;
        h_samples := h_samples h |}, e)) ;;
  sampler_search.

Definition sampler_solver : PyDDSBB Objective :=
  {| handle := SamplerHandle;
     DDSBB := sampler_new;
     optimize := sampler_optimize;
     resume := sampler_resume;
     get_optimum := fun h =>
       match incumbent alg (h_search h) with
       | Some (_, y) => Ok y
       | None => Raise (LibraryError "no incumbent")
       end;
     get_optimizer := fun h =>
       match incumbent alg (h_search h) with
       | Some (x, _) => Ok x
       | None => Raise (LibraryError "no incumbent")
       end |}.
End Sampling.

(** ** The minimisation demo: the curves and the figure *)

(** [np.linspace(start, stop, num)] as numpy computes it with its defaults:
    the integers 0 .. num - 1 as floats, scaled by the step (or, when the
    step underflows to zero, divided and then scaled), shifted by [start],
    and the last point set to [stop]. *)
Definition linspace (start stop : float) (num : nat) : list float :=
  let div := float_of_Z (Z.of_nat (num - 1)) in
  let delta := (stop - start)%float in
  let y := map (fun i => float_of_Z (Z.of_nat i)) (seq 0 num) in
  let y := if (0 <? num - 1)%nat
           then let step := (delta / div)%float in
                if (step =? 0)%float
                then map (fun v => (v / div * delta)%float) y
                else map (fun v => (v * step)%float) y
           else map (fun v => (v * delta)%float) y in
  let y := map (fun v => (v + start)%float) y in
  if (1 <? num)%nat then <[(num - 1)%nat := stop]> y else y.

Section Curves.
Context `{Numpy}.

(** [rng.normal(loc, scale, size=n)]: [n] variates drawn one after the
    other. *)
Fixpoint rng_normal_array (rng : addr) (loc scale : float) (n : nat)
    : M Env (list float) :=
  match n with
  | O => ret []
  | S n' =>
      d <- rng_normal rng loc scale ;;
      ds <- rng_normal_array rng loc scale n' ;;
      ret (d :: ds)
  end.

(** [curve(f, xmin, xmax, noise_std, seed)] *)
Definition curve (f : float -> float) (xmin xmax noise_std : float) (seed : Z)
    : M Env (list float * list float) :=
  let xs := linspace xmin xmax 600 in
  let ys := np_apply f xs in
  if (0 <? noise_std)%float then
    rng <- default_rng seed ;;
    noise <- rng_normal_array rng 0%float noise_std (length ys) ;;
    ret (xs, zip_with PrimFloat.add ys noise)
  else ret (xs, ys).
End Curves.

(** A trace of a figure: a named line through points, or named markers. *)
Inductive Scatter : Type :=
  | Lines (name : string) (x y : list float)
  | Markers (name : string) (x y : list float).

(** The figure [make_plot] returns: its traces in the order they were added
    and its title; the constants of the layout are left out. *)
Record Figure : Type := { fig_traces : list Scatter; fig_title : string }.

(** [make_plot(xs, ys, xopt, yopt, f_true_xs, f_true_ys, title)] *)
Definition make_plot (xs ys : list float) (xopt yopt : option float)
    (f_true_xs f_true_ys : list float) (title : string) : Figure :=
  let traces := [Lines "True f(x)" f_true_xs f_true_ys;
                 Lines "Observed f(x)" xs ys] in
  let traces :=
    match xopt, yopt with
    | Some x, Some y => traces ++ [Markers "PyDDSBB optimum" [x] [y]]
    | _, _ => traces
    end in
  {| fig_traces := traces; fig_title := title |}.

Section Visualization.
Context `{Numpy} `{PyDDSBB Objective}.

(** The visualisation the script ends with: the true curve, the observed
    curve, the optimum of the stored result if there is one, the figure. *)
Definition visualization (w : Widgets) : M World Figure :=
  f <- match getitem FUNCTIONS (kind w) with
       | Some f => ret f
       | None => raise (KeyError (kind w))
       end ;;
  true_curve <- in_env (curve f (x_min w) (x_max w) 0%float 42) ;;
  obs_curve <- in_env (curve f (x_min w) (x_max w) (noise_std w) (seed w)) ;;
  W <- get ;;
  let xopt := option_map xopt (result (session W)) in
  let yopt := option_map yopt (result (session W)) in
  ret (make_plot (fst obs_curve) (snd obs_curve) xopt yopt
         (fst true_curve) (snd true_curve) (kind w)).

(** The page: the controller, then the visualisation. *)
Definition page (w : Widgets) : M World Figure :=
  rerun w ;; visualization w.
End Visualization.

(** ** The fitting demo: the functions and the model families *)

Section FitFunctions.
Context `{Numpy}.
#[local] Open Scope float_scope.

(** [true_function(x, kind)] on an array. *)
Definition true_function (x : list float) (kind : string) : list float :=
  if String.eqb kind "Sine (sin(2πx))" then
    map (fun v => np_sin (2 * np_pi * v)) x
  else if String.eqb kind "Sine (sin(3x) + 0.5 sin(7x))" then
    map (fun v => np_sin (3 * v) + 0.5 * np_sin (7 * v)) x
  else if String.eqb kind "Polynomial (x^3 - 0.5x^2 + 0.2x)" then
    map (fun v => np_power v 3 - 0.5 * np_power v 2 + 0.2 * v) x
  else if String.eqb kind "Gaussian bump" then
    map (fun v => np_exp (- (np_power (v - 0.2) 2) / 0.01)
                  - 0.7 * np_exp (- (np_power (v - 0.75) 2) / 0.02)) x
  else if String.eqb kind "Piecewise (abs(x - 0.5))" then
    map (fun v => abs (v - 0.5)) x
  else if String.eqb kind "Rational (x^2 + 10x) / (1 + x^2)" then
    map (fun v => (np_power v 2 + 10 * v) / (1 + np_power v 2)) x
  else map (fun v => 2 * v - 1) x.

(** The model functions.  Each unpacks [theta] into its parameters, which
    raises [ValueError] unless [theta] has exactly that many entries: that
    is [None] here. *)
Definition model_poly (x theta : list float) : option (list float) :=
  match theta with
  | [a0; a1; a2; a3] =>
      Some (map (fun v => a0 + a1 * v + a2 * np_power v 2 + a3 * np_power v 3) x)
  | _ => None
  end.

Definition model_rational (x theta : list float) : option (list float) :=
  match theta with
  | [a; b; c] =>
      Some (map (fun v => (a * np_power v 2 + b * v)
                          / (1.0 + abs c * np_power v 2 + 1e-8)) x)
  | _ => None
  end.

Definition model_gauss2 (x theta : list float) : option (list float) :=
  match theta with
  | [A1; mu1; s1; A2; mu2; s2] =>
      let s1 := abs s1 + 1e-6 in
      let s2 := abs s2 + 1e-6 in
      Some (map (fun v => A1 * np_exp (-0.5 * np_power ((v - mu1) / s1) 2)
                          + A2 * np_exp (-0.5 * np_power ((v - mu2) / s2) 2)) x)
  | _ => None
  end.

Definition MODEL_ZOO
    : list (string * ((list float -> list float -> option (list float))
                      * list string)) :=
  [ ("Cubic polynomial (a0 + a1 x + a2 x^2 + a3 x^3)"%string,
     (model_poly, ["a0"; "a1"; "a2"; "a3"]%string));
    ("Rational ( (a x^2 + b x) / (1 + c x^2) )"%string,
     (model_rational, ["a"; "b"; "c"]%string));
    ("Two Gaussians (A1, mu1, s1, A2, mu2, s2)"%string,
     (model_gauss2, ["A1"; "mu1"; "s1"; "A2"; "mu2"; "s2"]%string)) ].
End FitFunctions.

(** The bounds the sidebar of the fitting demo collects: for every parameter
    name, in order, the values of the two number inputs keyed by it. *)
Definition sidebar_bounds (value : string -> float) (param_names : list string)
    : list (float * float) :=
  fold_left (fun bounds p =>
               bounds ++ [(value ("lb_" ++ p)%string, value ("ub_" ++ p)%string)])
    param_names [].

(** ** Clicks

    A click on a button reruns the script with the other widgets as they
    were; the button clicked reads [True] in that rerun and the other one
    [False]. *)

Definition press_run (w : Widgets) : Widgets :=
  {| kind := kind w; x_min := x_min w; x_max := x_max w; seed := seed w;
     noise_std := noise_std w; n_init := n_init w;
     split_method := split_method w;
     variable_selection := variable_selection w;
     multifidelity := multifidelity w; sense := sense w; abs_tol := abs_tol w;
     rel_tol := rel_tol w; min_bound := min_bound w;
     sampling_limit := sampling_limit w; time_limit := time_limit w;
     auto_run := auto_run w; run_btn := true; resume_btn := false |}.

Definition press_resume (w : Widgets) : Widgets :=
  {| kind := kind w; x_min := x_min w; x_max := x_max w; seed := seed w;
     noise_std := noise_std w; n_init := n_init w;
     split_method := split_method w;
     variable_selection := variable_selection w;
     multifidelity := multifidelity w; sense := sense w; abs_tol := abs_tol w;
     rel_tol := rel_tol w; min_bound := min_bound w;
     sampling_limit := sampling_limit w; time_limit := time_limit w;
     auto_run := auto_run w; run_btn := false; resume_btn := true |}.

(** ** Concrete collaborators, to run the script on concrete inputs *)

Module Stub.
#[local] Open Scope float_scope.

(** A small natural number as a float. *)
Fixpoint float_of_nat (n : nat) : float :=
  match n with
  | O => 0
  | S n' => float_of_nat n' + 1
  end.

(** A stand-in for numpy.  Integer powers are repeated products; the
    transcendental functions are not computed ([f_linear] and [f_piecewise]
    do not use them); the normal stream of every seed is 1/8, 2/8, ... *)
Definition numpy : Numpy :=
  {| np_sin := fun x => x;
     np_exp := fun x => x;
     np_power := fun x n => Z.iter n (fun p => p * x) 1;
     standard_normal := fun _ i => float_of_nat (S i) / 8 |}.

(** A search that sweeps the first variable's range in sixteen equal steps
    and keeps the best sample for its sense. *)
Definition better (maximize : bool) (y y' : float) : bool :=
  if maximize then y' <? y else y <? y'.

Definition best (maximize : bool) (l : list (list float * float))
    : option (list float * float) :=
  fold_left (fun acc s =>
               match acc with
               | None => Some s
               | Some b => if better maximize (snd s) (snd b) then Some s else Some b
               end) l None.

Definition sweep : Sampler :=
  {| search := bool * list (list float * float);
     search_init := fun _ _ _ _ sense =>
       (match sense with
        | Some s => String.eqb s "maximize"
        | None => false
        end, []);
     propose := fun s bounds =>
       match bounds with
       | [] => None
       | (lb, ub) :: _ =>
           let k := length (snd s) in
           if (k <=? 16)%nat
           then Some [lb + (ub - lb) * float_of_nat k / 16]
           else None
       end;
     observe := fun s x y => (fst s, snd s ++ [(x, y)]);
     incumbent := fun s => best (fst s) (snd s) |}.

Definition solver : PyDDSBB Objective := @sampler_solver numpy sweep.

(** A solver that fails in [optimize]. *)
Definition failing : PyDDSBB Objective :=
  {| handle := unit;
     DDSBB := fun _ _ _ _ _ _ => tt;
     optimize := fun _ => raise (LibraryError "glpk");
     resume := fun _ => raise (LibraryError "glpk");
     get_optimum := fun _ => Ok 0;
     get_optimizer := fun _ => Ok [0] |}.

(** A solver that honours the time limit of its stopping criteria: it
    sweeps as [sweep] does, one sample per instant, and stops as soon as the
    clock shows [time_limit] seconds or more since the call began. *)
Fixpoint timed_loop (budget : nat) (start : float) (obj : Objective)
    (bounds : list (float * float)) : M (SamplerHandle sweep * Env) unit :=
  match budget with
  | O => ret tt
  | S budget' =>
      fun '(h, e) =>
        if wall e (ticks e) - start <? StopOption.time_limit (h_stop sweep h)
        then
          match propose sweep (h_search sweep h) bounds with
          | None => (Ok tt, (h, e))
          | Some x =>
              (@sample_once numpy sweep obj x ;;
               timed_loop budget' start obj bounds) (h, e)
          end
        else (Ok tt, (h, e))
  end.

Definition timed_search : M (SamplerHandle sweep * Env) unit :=
  fun '(h, e) =>
    match h_model sweep h with
    | Some {| prob_objective := Some (obj, _); prob_variables := bounds |} =>
        timed_loop (budget_left sweep h) (wall e (ticks e)) obj bounds (h, e)
    | _ => (Raise (LibraryError "no problem to solve"), (h, e))
    end.

Definition timed : PyDDSBB Objective :=
  {| handle := SamplerHandle sweep;
     DDSBB := sampler_new sweep;
     optimize := fun model =>
       modify (fun '(h, e) =>
         ({| h_search := h_search sweep h; h_stop := h_stop sweep h;
             h_model := Some model; h_samples := h_samples sweep h |}, e)) ;;
       timed_search;
     resume := fun stop =>
       modify (fun '(h, e) =>
         ({| h_search := h_search sweep h; h_stop := stop;
             h_model := h_model sweep h; h_samples := h_samples sweep h |}, e)) ;;
       timed_search;
     get_optimum := @get_optimum _ solver;
     get_optimizer := @get_optimizer _ solver |}.

(** A solver for the fitting demo that records the problem and returns its
    first corner. *)
Definition corner : PyDDSBB FitObjective :=
  {| handle := list (float * float);
     DDSBB := fun _ _ _ _ _ _ => [];
     optimize := fun m => modify (fun '(_, e) => (prob_variables m, e));
     resume := fun _ => ret tt;
     get_optimum := fun _ => Ok 0;
     get_optimizer := fun h => Ok (map fst h) |}.

(** The sidebar as the script first shows it, with the linear function. *)
Definition widgets : Widgets :=
  {| kind := "Linear-ish (2x - 1)"; x_min := -1; x_max := 1; seed := 42;
     noise_std := 0; n_init := 12; split_method := "equal_bisection";
     variable_selection := "longest_side"; multifidelity := false;
     sense := "minimize"; abs_tol := 0.001; rel_tol := 0.001;
     min_bound := 0.01; sampling_limit := 800; time_limit := 20;
     auto_run := false; run_btn := false; resume_btn := false |}.

Definition with_noise (sigma : float) (limit : Z) (w : Widgets) : Widgets :=
  {| kind := kind w; x_min := x_min w; x_max := x_max w; seed := seed w;
     noise_std := sigma; n_init := n_init w;
     split_method := split_method w;
     variable_selection := variable_selection w;
     multifidelity := multifidelity w; sense := sense w; abs_tol := abs_tol w;
     rel_tol := rel_tol w; min_bound := min_bound w;
     sampling_limit := limit; time_limit := time_limit w;
     auto_run := auto_run w; run_btn := run_btn w; resume_btn := resume_btn w |}.

Definition with_sense (s : string) (w : Widgets) : Widgets :=
  {| kind := kind w; x_min := x_min w; x_max := x_max w; seed := seed w;
     noise_std := noise_std w; n_init := n_init w;
     split_method := split_method w;
     variable_selection := variable_selection w;
     multifidelity := multifidelity w; sense := s; abs_tol := abs_tol w;
     rel_tol := rel_tol w; min_bound := min_bound w;
     sampling_limit := sampling_limit w; time_limit := time_limit w;
     auto_run := auto_run w; run_btn := run_btn w; resume_btn := resume_btn w |}.

(** A clock that runs unevenly: the reading at the [t]-th instant is
    [t * t / 4] seconds. *)
Definition env0 : Env :=
  {| wall := fun t => float_of_nat t * float_of_nat t / 4; ticks := 0; rngs := [] |}.

(** The start of a session. *)
Definition world0 `{PyDDSBB Objective} : World :=
  {| session := session_init; env := env0; next_id := 0; trace := [] |}.
End Stub.

(** * Terms in which the properties are stated *)

Section ObjectiveCalls.
Context `{Numpy}.

(** The objective called on each input of a list in turn, as a solver does
    during one search. *)
Fixpoint calls (o : Objective) (xs : list float) : M Env (list float) :=
  match xs with
  | [] => ret []
  | x :: xs' =>
      v <- objective o [x] ;;
      vs <- calls o xs' ;;
      ret (v :: vs)
  end.
End ObjectiveCalls.

(** [P] holds on [lo], [lo + 1], ..., [lo + n - 1]. *)
Fixpoint check_from (lo : Z) (n : nat) (P : Z -> bool) : bool :=
  match n with
  | O => true
  | S n' => P lo && check_from (lo + 1) n' P
  end.

(** The increment computed in binary64 is [max(100, n // 2)]. *)
Definition extra_is_half (n : Z) : bool :=
  match extra_sampling n with
  | Some v => v =? Z.max 100 (n / 2)
  | None => false
  end.

(** [round(0.5 * n)] as the specification writes the increment: the nearest
    integer, a tie going to the even one as Python's [round] does. *)
Definition spec_round_half (n : Z) : Z :=
  let q := (n / 2)%Z in
  if Z.even n then q else if Z.even q then q else (q + 1)%Z.

(** A generator [k] draws later. *)
Definition advanced (g : Generator) (k : nat) : Generator :=
  {| gen_seed := gen_seed g; gen_drawn := gen_drawn g + k |}.

(** Bounds the problem object refuses, in the words of the specification:
    one of them is not finite, or the upper one is not above the lower one. *)
Definition out_of_domain (lb ub : float) : Prop :=
  is_finite lb = false \/ is_finite ub = false \/ (ub <=? lb)%float = true.

Section ControllerTerms.
Context `{PyDDSBB Objective}.

(** Triggers (1) and (2): an explicit run, or auto-run with a configuration
    that differs from the stored one. *)
Definition starts_fresh (w : Widgets) (W : World) : bool :=
  run_btn w || (auto_run w && cfg_ne (cfg w) (last_cfg (session W))).

(** The environment once the script has built its generator. *)
Definition env_with_rng (w : Widgets) (e : Env) : Env :=
  set_rngs (rngs e ++ [{| gen_seed := seed w; gen_drawn := 0 |}]) e.

(** The solver [new_solver()] returns. *)
Definition fresh_handle (w : Widgets) : handle :=
  DDSBB (n_init w) (split_method w) (variable_selection w) (multifidelity w)
    (stop_option w) (Some (sense w)).

(** The call [new_solver()] makes, on the object of identity [i]. *)
Definition construction (w : Widgets) (i : nat) : Event Objective :=
  CallDDSBB i (n_init w) (split_method w) (variable_selection w)
    (multifidelity w) (stop_option w) (Some (sense w)).

(** The world in which the run block starts after trigger (1) or (2). *)
Definition world_fresh (w : Widgets) (W : World) : World :=
  {| session := {| solver := Some (next_id W, fresh_handle w);
                   last_cfg := last_cfg (session W);
                   result := result (session W) |};
     env := env_with_rng w (env W);
     next_id := S (next_id W);
     trace := trace W ++ [construction w (next_id W)] |}.

(** The world when [optimize] returns or raises, having left the solver as
    [h'] and the environment as [e']. *)
Definition world_optimized (w : Widgets) (model : Problem Objective)
    (W : World) (i : nat) (h' : handle) (e' : Env) : World :=
  {| session := {| solver := Some (i, h'); last_cfg := Some (cfg w);
                   result := result (session W) |};
     env := e'; next_id := next_id W;
     trace := trace W ++ [CallOptimize i model] |}.

(** A world with another environment, and with a result stored. *)
Definition with_env (e : Env) (W : World) : World :=
  {| session := session W; env := e; next_id := next_id W; trace := trace W |}.

Definition with_result (r : Result) (W : World) : World :=
  {| session := {| solver := solver (session W);
                   last_cfg := last_cfg (session W); result := Some r |};
     env := env W; next_id := next_id W; trace := trace W |}.

(** Two configurations differ in at least one field, compared with [==]. *)
Definition differs_in_some_field (a b : Cfg.t) : Prop :=
  String.eqb (Cfg.kind a) (Cfg.kind b) = false
  \/ PrimFloat.eqb (Cfg.x_min a) (Cfg.x_min b) = false
  \/ PrimFloat.eqb (Cfg.x_max a) (Cfg.x_max b) = false
  \/ Z.eqb (Cfg.seed a) (Cfg.seed b) = false
  \/ PrimFloat.eqb (Cfg.noise_std a) (Cfg.noise_std b) = false
  \/ Z.eqb (Cfg.n_init a) (Cfg.n_init b) = false
  \/ String.eqb (Cfg.split_method a) (Cfg.split_method b) = false
  \/ String.eqb (Cfg.variable_selection a) (Cfg.variable_selection b) = false
  \/ Bool.eqb (Cfg.multifidelity a) (Cfg.multifidelity b) = false
  \/ PrimFloat.eqb (StopOption.absolute_tolerance (Cfg.stop_option a))
       (StopOption.absolute_tolerance (Cfg.stop_option b)) = false
  \/ PrimFloat.eqb (StopOption.relative_tolerance (Cfg.stop_option a))
       (StopOption.relative_tolerance (Cfg.stop_option b)) = false
  \/ PrimFloat.eqb (StopOption.minimum_bound (Cfg.stop_option a))
       (StopOption.minimum_bound (Cfg.stop_option b)) = false
  \/ Z.eqb (StopOption.sampling_limit (Cfg.stop_option a))
       (StopOption.sampling_limit (Cfg.stop_option b)) = false
  \/ PrimFloat.eqb (StopOption.time_limit (Cfg.stop_option a))
       (StopOption.time_limit (Cfg.stop_option b)) = false
  \/ String.eqb (Cfg.sense a) (Cfg.sense b) = false.

(** The stored configuration is stale for the widgets: there is none, or it
    differs from the current one in some field. *)
Definition stale (w : Widgets) (W : World) : Prop :=
  match last_cfg (session W) with
  | None => True
  | Some c => differs_in_some_field (cfg w) c
  end.

(** Two problems that agree in all a solver can tell apart without noise:
    the bounds, the sense, and the objective's base function and noise
    level.  They may differ in the generator object the objective holds. *)
Definition same_problem (m1 m2 : Problem Objective) : Prop :=
  prob_variables m1 = prob_variables m2
  /\ match prob_objective m1, prob_objective m2 with
     | Some (o1, s1), Some (o2, s2) =>
         obj_f o1 = obj_f o2 /\ obj_noise_std o1 = obj_noise_std o2 /\ s1 = s2
     | None, None => True
     | _, _ => False
     end.

(** The objective of the problem draws no noise. *)
Definition noise_free (m : Problem Objective) : Prop :=
  match prob_objective m with
  | Some (o, _) => (0 <? obj_noise_std o)%float = false
  | None => True
  end.

(** Identities are handed out in order: the held solver and every call made
    so far carry an identity below the next one. *)
Definition world_ok (W : World) : Prop :=
  (forall j h0, solver (session W) = Some (j, h0) -> (j < next_id W)%nat)
  /\ Forall (fun ev => (event_id ev < next_id W)%nat) (trace W).

(** The world after trigger (3): the held solver has been resumed. *)
Definition world_resumed (W : World) (i : nat) (stop : StopOption.t)
    (h' : handle) (e' : Env) : World :=
  {| session := {| solver := Some (i, h'); last_cfg := last_cfg (session W);
                   result := result (session W) |};
     env := e'; next_id := next_id W;
     trace := trace W ++ [CallResume i stop] |}.

(** What the run block reads back from the solver once [optimize] is over:
    the best input's first coordinate and the best value. *)
Definition readback (r : Res unit) (h' : handle) : Res (float * float) :=
  match r with
  | Raise ex => Raise ex
  | Ok _ =>
      match get_optimum h' with
      | Raise ex => Raise ex
      | Ok y =>
          match get_optimizer h' with
          | Raise ex => Raise ex
          | Ok [] => Raise IndexError
          | Ok (x :: _) => Ok (x, y)
          end
      end
  end.

(** A solver whose search is a function of the solver object and of the
    problem alone: from the same solver object, [optimize] on two problems
    that agree and draw no noise ends alike and leaves the same optimum to
    read back, whatever the clock shows and whichever generators exist.  A
    solver that stops on its time limit, or that draws at random, is not of
    this kind. *)
Definition repeatable : Prop :=
  forall (h : handle) (m1 m2 : Problem Objective) (e1 e2 : Env),
    same_problem m1 m2 -> noise_free m1 ->
    readback (fst (optimize m1 (h, e1))) (fst (snd (optimize m1 (h, e1))))
    = readback (fst (optimize m2 (h, e2))) (fst (snd (optimize m2 (h, e2)))).
End ControllerTerms.

(** ** Concrete sessions with the sweeping solver *)

Section Scenario.
#[local] Existing Instance Stub.numpy.
#[local] Existing Instance Stub.solver.
#[local] Open Scope float_scope.

(** The linear function, no noise, at most ten samples, maximising. *)
Definition w_max : Widgets :=
  Stub.with_sense "maximize" (Stub.with_noise 0 10 Stub.widgets).
(** The linear function with noise 0.25 and at most ten samples. *)
Definition w_noisy : Widgets := Stub.with_noise 0.25 10 Stub.widgets.
(** The linear function with a sampling limit of 203. *)
Definition w_203 : Widgets := Stub.with_noise 0 203 Stub.widgets.

(** A session in which Run was pressed once, and then Resume. *)
Definition after_run (w : Widgets) : World :=
  snd (rerun (press_run w) Stub.world0).
Definition after_resume (w : Widgets) : World :=
  snd (rerun (press_resume w) (after_run w)).

(** The linear function on bounds the wrong way round. *)
Definition w_inverted : Widgets :=
  {| kind := "Linear-ish (2x - 1)"; x_min := 1; x_max := -1; seed := 42;
     noise_std := 0; n_init := 12; split_method := "equal_bisection";
     variable_selection := "longest_side"; multifidelity := false;
     sense := "minimize"; abs_tol := 0.001; rel_tol := 0.001;
     min_bound := 0.01; sampling_limit := 800; time_limit := 20;
     auto_run := false; run_btn := false; resume_btn := false |}.

(** The sidebar as the script first shows it, maximising. *)
Definition w_maximize : Widgets := Stub.with_sense "maximize" Stub.widgets.

(** A session with the time-limited solver in which Run was pressed once,
    and then once more. *)
Definition timed_first (w : Widgets) : @World Stub.timed :=
  snd (@rerun Stub.numpy Stub.timed (press_run w) (@Stub.world0 Stub.timed)).
Definition timed_second (w : Widgets) : @World Stub.timed :=
  snd (@rerun Stub.numpy Stub.timed (press_run w) (timed_first w)).

(** The widgets after the seed was changed to 7 with auto-run on. *)
Definition w_auto : Widgets :=
  {| kind := "Linear-ish (2x - 1)"; x_min := -1; x_max := 1; seed := 7;
     noise_std := 0; n_init := 12; split_method := "equal_bisection";
     variable_selection := "longest_side"; multifidelity := false;
     sense := "minimize"; abs_tol := 0.001; rel_tol := 0.001;
     min_bound := 0.01; sampling_limit := 800; time_limit := 20;
     auto_run := true; run_btn := false; resume_btn := false |}.
End Scenario.

(** ** Sessions *)

Section SessionTerms.
Context `{Numpy} `{PyDDSBB Objective}.

(** The world in which a session starts: nothing stored, nothing called. *)
Definition start_world (e : Env) : World :=
  {| session := session_init; env := e; next_id := 0; trace := [] |}.

(** A session: the script is rerun once per interaction, each time on the
    world the rerun before it left, whether that one returned or raised. *)
Definition run_session (ws : list Widgets) (W : World) : World :=
  fold_left (fun V w => snd (rerun w V)) ws W.

(** The identity of the solver constructed last in a sequence of calls,
    starting from [cur]. *)
Definition latest {O} (cur : option nat) (tr : list (Event O)) : option nat :=
  fold_left (fun c ev => match ev with
                         | CallDDSBB i _ _ _ _ _ _ => Some i
                         | _ => c
                         end) tr cur.

(** Every [optimize] and [resume] of a sequence of calls is made on the
    solver constructed last before it. *)
Fixpoint targets_latest {O} (cur : option nat) (tr : list (Event O)) : Prop :=
  match tr with
  | [] => True
  | CallDDSBB i _ _ _ _ _ _ :: tr' => targets_latest (Some i) tr'
  | CallOptimize i _ :: tr' | CallResume i _ :: tr' =>
      cur = Some i /\ targets_latest cur tr'
  end.
End SessionTerms.

(** * Properties *)

(** ** The objective adapter *)

Section ObjectiveAdapter.
Context `{Numpy}.

Lemma noisy_eval_deterministic (f : float -> float) (x sigma : float)
    (rng : addr) (e : Env) :
  (0 <? sigma)%float = false -> noisy_eval f x sigma rng e = (Ok (f x), e).
Proof.
  intros Hs. unfold noisy_eval, np_apply. cbn [map]. now rewrite Hs.
Qed.

Lemma noisy_eval_draws (f : float -> float) (x sigma : float)
    (rng : addr) (e : Env) (g : Generator) :
  (0 <? sigma)%float = true -> rngs e !! rng = Some g ->
  noisy_eval f x sigma rng e
  = (Ok (f x + (0 + sigma * standard_normal (gen_seed g) (gen_drawn g)))%float,
     set_rngs (<[rng := {| gen_seed := gen_seed g;
                           gen_drawn := S (gen_drawn g) |}]> (rngs e)) e).
Proof.
  intros Hs Hg. unfold noisy_eval, np_apply. cbn [map]. rewrite Hs.
  unfold bind, rng_normal. now rewrite Hg.
Qed.

(** C8: with [noise_std = 0] the objective returns exactly the base
    function at its input, on every input and however often it is called:
    nothing is drawn and the environment, generators included, is left as
    it was. *)
Theorem noise_free_objective_is_base_function (o : Objective)
    (xs : list float) (e : Env) :
  obj_noise_std o = 0%float ->
  calls o xs e = (Ok (map (obj_f o) xs), e).
Proof.
  intros Hz. induction xs as [|x xs IH]; [reflexivity|].
  cbn [calls map]. unfold bind at 1. cbn [objective].
  rewrite noisy_eval_deterministic by (rewrite Hz; reflexivity).
  unfold bind at 1. rewrite IH. reflexivity.
Qed.
End ObjectiveAdapter.

(** ** The expanded sampling limit *)

Lemma check_from_sound (P : Z -> bool) (n : nat) :
  forall lo, check_from lo n P = true ->
  forall z, lo <= z < lo + Z.of_nat n -> P z = true.
Proof.
  induction n as [|n IH]; intros lo Hc z Hz; [lia|].
  cbn [check_from] in Hc. apply andb_true_iff in Hc as [Hlo Hrest].
  destruct (Z.eq_dec z lo) as [->|Hne]; [exact Hlo|].
  apply (IH (lo + 1)); [exact Hrest | lia].
Qed.

(** On every value the [sampling_limit] widget can hold, the binary64
    computation [int(max(100, 0.5 * sampling_limit))] is the integer
    [max(100, sampling_limit // 2)]. *)
Lemma extra_sampling_in_range (n : Z) :
  10 <= n <= 20000 -> extra_sampling n = Some (Z.max 100 (n / 2)).
Proof.
  intros Hn.
  assert (Hall : check_from 10 (Z.to_nat 19991) extra_is_half = true)
    by (vm_compute; reflexivity).
  pose proof (check_from_sound _ _ _ Hall n) as Hp.
  rewrite Z2Nat.id in Hp by lia. specialize (Hp ltac:(lia)).
  unfold extra_is_half in Hp. destruct (extra_sampling n) as [v|]; [|discriminate].
  apply Z.eqb_eq in Hp. now subst.
Qed.

(** ** The session controller *)

Section Controller.
Context `{Numpy} `{PyDDSBB Objective}.

Lemma rerun_fresh (w : Widgets) (W : World) (f : float -> float) :
  getitem FUNCTIONS (kind w) = Some f ->
  starts_fresh w W = true ->
  rerun w W
  = run_block w (build_model w f (length (rngs (env W)))) (world_fresh w W).
Proof.
  intros Hf Hs. unfold rerun. rewrite Hf.
  unfold starts_fresh in Hs.
  unfold bind, ret, in_env, default_rng, decide_run, get, new_solver,
    set_solver, modify; cbn.
  destruct (run_btn w); cbn.
  - reflexivity.
  - cbn in Hs. rewrite Hs. cbn. reflexivity.
Qed.

Lemma run_block_held (w : Widgets) (model : Problem Objective) (W : World)
    (i : nat) (h h' : handle) (r : Res unit) (e' : Env) :
  solver (session W) = Some (i, h) ->
  optimize model (h, set_ticks (S (ticks (env W))) (env W)) = (r, (h', e')) ->
  let W2 := world_optimized w model W i h' e' in
  let W3 := with_env (set_ticks (S (ticks e')) e') W2 in
  run_block w model W
  = match r with
    | Raise ex => (Raise ex, W2)
    | Ok _ =>
        match get_optimum h' with
        | Raise ex => (Raise ex, W3)
        | Ok y =>
            match get_optimizer h' with
            | Raise ex => (Raise ex, W3)
            | Ok [] => (Raise IndexError, W3)
            | Ok (x :: _) =>
                (Ok tt,
                 with_result
                   {| xopt := x; yopt := y;
                      elapsed := (wall e' (ticks e')
                                  - wall (env W) (ticks (env W)))%float |} W3)
            end
        end
    end.
Proof.
  intros Hs Ho W2 W3. subst W2 W3.
  unfold run_block, bind, set_last_cfg, modify, in_env, time_time,
    solver_call, solver_read, item0, set_result, ret, raise; cbn.
  rewrite Hs; cbn. rewrite Ho; cbn.
  destruct r as [[]|ex]; cbn; [|reflexivity].
  destruct (get_optimum h') as [y|ex]; cbn; [|reflexivity].
  destruct (get_optimizer h') as [[|x xs]|ex]; cbn; reflexivity.
Qed.

(** C3: the run operation calls [optimize] on the held solver with the
    current problem; when the call and the two accessors return, the best
    input, the best value and the difference of the two clock readings
    replace whatever [result] held; when [optimize] raises, the same
    exception leaves the run block, and whenever an exception leaves the
    run block [result] is what it was. *)
Theorem run_stores_result_or_propagates (w : Widgets)
    (model : Problem Objective) (W : World) (i : nat) (h h' : handle)
    (r : Res unit) (e' : Env) :
  solver (session W) = Some (i, h) ->
  optimize model (h, set_ticks (S (ticks (env W))) (env W)) = (r, (h', e')) ->
  exists out W',
    run_block w model W = (out, W')
    /\ trace W' = trace W ++ [CallOptimize i model]
    /\ solver (session W') = Some (i, h')
    /\ (forall ex, r = Raise ex -> out = Raise ex)
    /\ (forall ex, out = Raise ex -> result (session W') = result (session W))
    /\ (forall y x xs,
          r = Ok tt -> get_optimum h' = Ok y -> get_optimizer h' = Ok (x :: xs) ->
          out = Ok tt
          /\ result (session W')
             = Some {| xopt := x; yopt := y;
                       elapsed := (wall e' (ticks e')
                                   - wall (env W) (ticks (env W)))%float |}).
Proof.
  intros Hs Ho. rewrite (run_block_held w model W i h h' r e' Hs Ho).
  destruct r as [[]|ex].
  - destruct (get_optimum h') as [y|ex] eqn:Hy;
      [destruct (get_optimizer h') as [[|x xs]|ex] eqn:Hx|];
      eexists _, _; (split; [reflexivity|]); cbn;
      repeat split; try congruence; try discriminate.
    all: intros y' x' xs' _ Hy' Hx'; congruence.
  - eexists _, _; split; [reflexivity|]; cbn.
    repeat split; try congruence; try discriminate.
Qed.

(** C5: an explicit run builds a solver from the current widget values,
    under a new identity, stores the current configuration, and runs it
    once: the calls made are the construction and one [optimize] on the new
    solver, and on completion [result] is the value read back from it.
    Nothing is assumed of the stored configuration. *)
Theorem explicit_run_replaces_solver_and_runs (w : Widgets) (W : World)
    (f : float -> float) (r : Res unit) (h' : handle) (e' : Env) :
  getitem FUNCTIONS (kind w) = Some f ->
  run_btn w = true ->
  optimize (build_model w f (length (rngs (env W))))
    (fresh_handle w,
     set_ticks (S (ticks (env W))) (env_with_rng w (env W))) = (r, (h', e')) ->
  exists out W',
    rerun w W = (out, W')
    /\ solver (session W') = Some (next_id W, h')
    /\ next_id W' = S (next_id W)
    /\ last_cfg (session W') = Some (cfg w)
    /\ trace W'
       = trace W ++ [construction w (next_id W);
                     CallOptimize (next_id W)
                       (build_model w f (length (rngs (env W))))]
    /\ (forall y x xs,
          r = Ok tt -> get_optimum h' = Ok y -> get_optimizer h' = Ok (x :: xs) ->
          out = Ok tt
          /\ result (session W')
             = Some {| xopt := x; yopt := y;
                       elapsed := (wall e' (ticks e')
                                   - wall (env W) (ticks (env W)))%float |}).
Proof.
  intros Hf Hrun Ho.
  rewrite (rerun_fresh w W f Hf) by (unfold starts_fresh; now rewrite Hrun).
  rewrite (run_block_held w _ (world_fresh w W) (next_id W) (fresh_handle w)
             h' r e' eq_refl Ho).
  destruct r as [[]|ex].
  - destruct (get_optimum h') as [y|ex] eqn:Hy;
      [destruct (get_optimizer h') as [[|x xs]|ex] eqn:Hx|];
      eexists _, _; (split; [reflexivity|]); cbn;
      rewrite <- ?app_assoc; cbn; repeat split; try congruence.
    all: intros y' x' xs' _ Hy' Hx'; congruence.
  - eexists _, _; split; [reflexivity|]; cbn.
    rewrite <- app_assoc; cbn. repeat split; discriminate.
Qed.

Lemma cfg_eqb_false_iff (a b : Cfg.t) :
  Cfg.eqb a b = false <-> differs_in_some_field a b.
Proof.
  unfold Cfg.eqb, StopOption.eqb, differs_in_some_field.
  rewrite !andb_false_iff. tauto.
Qed.

Lemma stale_cfg_ne (w : Widgets) (W : World) :
  stale w W <-> cfg_ne (cfg w) (last_cfg (session W)) = true.
Proof.
  unfold stale, cfg_ne. destruct (last_cfg (session W)) as [c|]; [|tauto].
  rewrite <- cfg_eqb_false_iff, negb_true_iff. tauto.
Qed.

(** C4: with auto-run on and a stale stored configuration (none yet, or one
    that differs from the current one in any single field), whatever the
    buttons, the script builds a solver from the current widget values
    under a new identity, stores the current configuration and runs the new
    solver; every call it makes is on the new solver, none on the one held
    before. *)
Theorem auto_run_replaces_stale_solver (w : Widgets) (W : World)
    (f : float -> float) (r : Res unit) (h' : handle) (e' : Env) :
  getitem FUNCTIONS (kind w) = Some f ->
  auto_run w = true ->
  stale w W ->
  world_ok W ->
  optimize (build_model w f (length (rngs (env W))))
    (fresh_handle w,
     set_ticks (S (ticks (env W))) (env_with_rng w (env W))) = (r, (h', e')) ->
  exists out W' calls,
    rerun w W = (out, W')
    /\ solver (session W') = Some (next_id W, h')
    /\ last_cfg (session W') = Some (cfg w)
    /\ trace W' = trace W ++ calls
    /\ calls = [construction w (next_id W);
                CallOptimize (next_id W)
                  (build_model w f (length (rngs (env W))))]
    /\ (forall j h0, solver (session W) = Some (j, h0) ->
        Forall (fun ev => event_id ev <> j) calls)
    /\ (forall y x xs,
          r = Ok tt -> get_optimum h' = Ok y -> get_optimizer h' = Ok (x :: xs) ->
          out = Ok tt
          /\ result (session W')
             = Some {| xopt := x; yopt := y;
                       elapsed := (wall e' (ticks e')
                                   - wall (env W) (ticks (env W)))%float |}).
Proof.
  intros Hf Hauto Hstale [Hheld _] Ho.
  apply stale_cfg_ne in Hstale.
  rewrite (rerun_fresh w W f Hf)
    by (unfold starts_fresh; rewrite Hauto, Hstale; apply orb_true_r).
  rewrite (run_block_held w _ (world_fresh w W) (next_id W) (fresh_handle w)
             h' r e' eq_refl Ho).
  assert (Hold : forall j h0, solver (session W) = Some (j, h0) ->
            Forall (fun ev : Event Objective => event_id ev <> j)
              [construction w (next_id W);
               CallOptimize (next_id W)
                 (build_model w f (length (rngs (env W))))]).
  { intros j h0 Hj. specialize (Hheld j h0 Hj).
    repeat constructor; cbn; lia. }
  destruct r as [[]|ex].
  - destruct (get_optimum h') as [y|ex] eqn:Hy;
      [destruct (get_optimizer h') as [[|x xs]|ex] eqn:Hx|];
      eexists _, _, _; (split; [reflexivity|]); cbn;
      rewrite <- ?app_assoc; cbn;
      (split; [reflexivity|]); (split; [reflexivity|]);
      (split; [reflexivity|]); (split; [reflexivity|]);
      (split; [exact Hold|]).
    all: intros y' x' xs' _ Hy' Hx'; split; congruence.
  - eexists _, _, _; split; [reflexivity|]; cbn.
    rewrite <- app_assoc; cbn.
    repeat (split; [first [reflexivity | exact Hold]|]). discriminate.
Qed.

(** C6: when Resume is pressed and no solver is held, and neither an
    explicit run nor the auto-run trigger, which come first, applies, the
    script calls nothing and leaves the solver, the stored configuration
    and the result as they were. *)
Theorem resume_without_solver_is_noop (w : Widgets) (W : World)
    (f : float -> float) :
  getitem FUNCTIONS (kind w) = Some f ->
  resume_btn w = true ->
  solver (session W) = None ->
  starts_fresh w W = false ->
  exists W',
    rerun w W = (Ok tt, W')
    /\ session W' = session W
    /\ trace W' = trace W
    /\ next_id W' = next_id W.
Proof.
  intros Hf Hres Hnone Hfresh. unfold starts_fresh in Hfresh.
  apply orb_false_iff in Hfresh as [Hrun Hauto].
  unfold rerun. rewrite Hf.
  unfold bind, ret, in_env, default_rng, decide_run, get; cbn.
  rewrite Hrun, Hauto, Hres, Hnone; cbn.
  eexists; split; [reflexivity|]. cbn. repeat split.
Qed.

Lemma rerun_resume (w : Widgets) (W : World) (f : float -> float) (i : nat)
    (h h' : handle) (stop : StopOption.t) (r : Res unit) (e' : Env) :
  getitem FUNCTIONS (kind w) = Some f ->
  starts_fresh w W = false ->
  resume_btn w = true ->
  solver (session W) = Some (i, h) ->
  new_stop w = Some stop ->
  resume stop (h, env_with_rng w (env W)) = (r, (h', e')) ->
  rerun w W = (r, world_resumed W i stop h' e').
Proof.
  intros Hf Hfresh Hres Hs Hstop Hr. unfold starts_fresh in Hfresh.
  apply orb_false_iff in Hfresh as [Hrun Hauto].
  unfold rerun. rewrite Hf.
  unfold bind, ret, in_env, default_rng, decide_run, get; cbn.
  rewrite Hrun, Hauto, Hres, Hs, Hstop; cbn.
  unfold solver_call, bind, ret; cbn. rewrite Hs.
  unfold env_with_rng in Hr. rewrite Hr.
  destruct r as [[]|ex]; reflexivity.
Qed.

Lemma new_stop_in_range (w : Widgets) :
  10 <= sampling_limit w <= 20000 ->
  new_stop w
  = Some (StopOption.with_sampling_limit (stop_option w)
            (sampling_limit w + Z.max 100 (sampling_limit w / 2))).
Proof.
  intros Hr. unfold new_stop. now rewrite extra_sampling_in_range.
Qed.

(** C2, as the code has it: when Resume fires on a held solver, the bundle
    handed to [resume] is [stop_option] with the sampling limit raised by
    [max(100, sampling_limit // 2)], the half truncated, not rounded, and
    with every other field as it is; so the new limit is at least the old
    one plus 100, exactly that up to 200, and above 200 at least one and a
    half times the old one less one half. *)
Theorem resume_passes_expanded_bundle (w : Widgets) (W : World)
    (f : float -> float) (i : nat) (h : handle) :
  getitem FUNCTIONS (kind w) = Some f ->
  starts_fresh w W = false ->
  resume_btn w = true ->
  solver (session W) = Some (i, h) ->
  10 <= sampling_limit w <= 20000 ->
  exists stop out W',
    rerun w W = (out, W')
    /\ trace W' = trace W ++ [CallResume i stop]
    /\ StopOption.sampling_limit stop
       = sampling_limit w + Z.max 100 (sampling_limit w / 2)
    /\ StopOption.absolute_tolerance stop = abs_tol w
    /\ StopOption.relative_tolerance stop = rel_tol w
    /\ StopOption.minimum_bound stop = min_bound w
    /\ StopOption.time_limit stop = time_limit w
    /\ sampling_limit w + 100 <= StopOption.sampling_limit stop
    /\ (sampling_limit w <= 200 ->
        StopOption.sampling_limit stop = sampling_limit w + 100)
    /\ (200 < sampling_limit w ->
        3 * sampling_limit w - 1 <= 2 * StopOption.sampling_limit stop).
Proof.
  intros Hf Hfresh Hres Hs Hr.
  pose proof (new_stop_in_range w Hr) as Hstop.
  destruct (resume (StopOption.with_sampling_limit (stop_option w)
                      (sampling_limit w + Z.max 100 (sampling_limit w / 2)))
              (h, env_with_rng w (env W))) as [r [h' e']] eqn:Hcall.
  rewrite (rerun_resume w W f i h h' _ r e' Hf Hfresh Hres Hs Hstop Hcall).
  eexists _, _, _; split; [reflexivity|].
  unfold world_resumed.
  cbn [trace stop_option StopOption.with_sampling_limit
       StopOption.sampling_limit StopOption.absolute_tolerance
       StopOption.relative_tolerance StopOption.minimum_bound
       StopOption.time_limit].
  pose proof (Z.div_mod (sampling_limit w) 2 ltac:(lia)) as Hdm.
  pose proof (Z.mod_pos_bound (sampling_limit w) 2 ltac:(lia)) as Hm.
  repeat split; try reflexivity.
  all: cbn [StopOption.sampling_limit StopOption.with_sampling_limit]; lia.
Qed.

(** When Resume fires, [result] is not touched, whatever the solver found. *)
Lemma resume_keeps_result (w : Widgets) (W : World) (f : float -> float)
    (i : nat) (h : handle) :
  getitem FUNCTIONS (kind w) = Some f ->
  starts_fresh w W = false ->
  resume_btn w = true ->
  solver (session W) = Some (i, h) ->
  10 <= sampling_limit w <= 20000 ->
  result (session (snd (rerun w W))) = result (session W).
Proof.
  intros Hf Hfresh Hres Hs Hr.
  pose proof (new_stop_in_range w Hr) as Hstop.
  destruct (resume (StopOption.with_sampling_limit (stop_option w)
                      (sampling_limit w + Z.max 100 (sampling_limit w / 2)))
              (h, env_with_rng w (env W))) as [r [h' e']] eqn:Hcall.
  now rewrite (rerun_resume w W f i h h' _ r e' Hf Hfresh Hres Hs Hstop Hcall).
Qed.

Lemma Forall_event_id_lt (tr : list (Event Objective)) (n : nat) :
  Forall (fun ev => (event_id ev < n)%nat) tr ->
  Forall (fun ev => (event_id ev < S n)%nat) tr.
Proof.
  intros Hall. eapply Forall_impl; [exact Hall|]. intros ev Hev. cbn in *. lia.
Qed.

(** Every run of the script keeps the identities in order. *)
Lemma rerun_world_ok (w : Widgets) (W : World) :
  world_ok W -> world_ok (snd (rerun w W)).
Proof.
  intros [Hheld Htr].
  destruct (getitem FUNCTIONS (kind w)) as [f|] eqn:Hf.
  2: { unfold rerun. rewrite Hf. cbn. now split. }
  destruct (starts_fresh w W) eqn:Hfresh.
  - rewrite (rerun_fresh w W f Hf Hfresh).
    destruct (optimize (build_model w f (length (rngs (env W))))
                (fresh_handle w,
                 set_ticks (S (ticks (env W))) (env_with_rng w (env W))))
      as [r [h' e']] eqn:Ho.
    rewrite (run_block_held w _ (world_fresh w W) (next_id W)
               (fresh_handle w) h' r e' eq_refl Ho).
    assert (Hok : Forall (fun ev : Event Objective =>
                            (event_id ev < S (next_id W))%nat)
              ((trace W ++ [construction w (next_id W)])
               ++ [CallOptimize (next_id W)
                     (build_model w f (length (rngs (env W))))])).
    { rewrite !Forall_app. repeat split.
      - now apply Forall_event_id_lt.
      - repeat constructor.
      - repeat constructor. }
    destruct r as [[]|ex];
      [destruct (get_optimum h') as [y|ex];
       [destruct (get_optimizer h') as [[|x xs]|ex]|]|];
      unfold with_result, with_env, world_optimized, world_fresh; cbn;
      (split; cbn; [intros j h0 [= <- _]; lia | exact Hok]).
  - unfold starts_fresh in Hfresh.
    apply orb_false_iff in Hfresh as [Hrun Hauto].
    unfold rerun. rewrite Hf.
    unfold bind, ret, in_env, default_rng, decide_run, get; cbn.
    rewrite Hrun, Hauto.
    destruct (resume_btn w); cbn;
      destruct (solver (session W)) as [[i h]|] eqn:Hs; cbn;
      try (split; cbn; rewrite ?Hs; assumption).
    destruct (new_stop w) as [stop|]; cbn;
      [|split; cbn; rewrite ?Hs; assumption].
    unfold solver_call, bind, ret, raise; cbn. rewrite Hs.
    destruct (resume stop _) as [r [h' e']].
    assert (Hok : Forall (fun ev : Event Objective =>
                            (event_id ev < next_id W)%nat)
              (trace W ++ [CallResume i stop])).
    { rewrite Forall_app; split; [assumption|].
      repeat constructor; cbn; now apply (Hheld i h). }
    destruct r as [[]|ex]; cbn; (split; cbn; [|exact Hok]).
    all: intros j h0 [= <- _]; now apply (Hheld i h).
Qed.

Lemma rerun_fresh_readback (w : Widgets) (W : World) (f : float -> float)
    (r : Res unit) (h' : handle) (e' : Env) :
  getitem FUNCTIONS (kind w) = Some f ->
  starts_fresh w W = true ->
  optimize (build_model w f (length (rngs (env W))))
    (fresh_handle w,
     set_ticks (S (ticks (env W))) (env_with_rng w (env W))) = (r, (h', e')) ->
  exists W',
    fst (rerun w W) = match readback r h' with
                      | Ok _ => Ok tt
                      | Raise ex => Raise ex
                      end
    /\ snd (rerun w W) = W'
    /\ solver (session W') = Some (next_id W, h')
    /\ rngs (env W') = rngs e'
    /\ (forall x y, readback r h' = Ok (x, y) ->
        exists t, result (session W')
                  = Some {| xopt := x; yopt := y; elapsed := t |}).
Proof.
  intros Hf Hfresh Ho. rewrite (rerun_fresh w W f Hf Hfresh).
  rewrite (run_block_held w _ (world_fresh w W) (next_id W) (fresh_handle w)
             h' r e' eq_refl Ho).
  unfold readback.
  destruct r as [[]|ex];
    [destruct (get_optimum h') as [y|ex];
     [destruct (get_optimizer h') as [[|x xs]|ex]|]|];
    eexists; cbn; repeat split; try discriminate.
  intros x' y' [= <- <-]. eexists; reflexivity.
Qed.
(** The calls of a fresh start: the construction of a solver and [optimize]
    on it with the problem built in that rerun. *)
Lemma rerun_fresh_trace (w : Widgets) (W : World) (f : float -> float) :
  getitem FUNCTIONS (kind w) = Some f ->
  starts_fresh w W = true ->
  trace (snd (rerun w W))
  = trace W ++ [construction w (next_id W);
                CallOptimize (next_id W)
                  (build_model w f (length (rngs (env W))))]
  /\ next_id (snd (rerun w W)) = S (next_id W).
Proof.
  intros Hf Hfresh. rewrite (rerun_fresh w W f Hf Hfresh).
  destruct (optimize (build_model w f (length (rngs (env W))))
              (fresh_handle w,
               set_ticks (S (ticks (env W))) (env_with_rng w (env W))))
    as [r [h' e']] eqn:Ho.
  rewrite (run_block_held w _ (world_fresh w W) (next_id W) (fresh_handle w)
             h' r e' eq_refl Ho).
  destruct r as [[]|ex];
    [destruct (get_optimum h') as [y|ex];
     [destruct (get_optimizer h') as [[|x xs]|ex]|]|];
    cbn; rewrite <- app_assoc; split; reflexivity.
Qed.

(** C9, as the code has it: with [noise_std = 0], two consecutive explicit
    runs with the same widget values each construct a solver with the same
    arguments and call [optimize] on it with problems that agree in bounds,
    sense, base function and noise level, the noise level being zero.  What
    they store is what each solver leaves to read back and a difference of
    clock readings.  So with a repeatable solver the two runs end alike, and
    when they complete they store the same best input and the same best
    value; the stored elapsed time is left open. *)
Theorem consecutive_noise_free_runs_agree_up_to_the_solver (w : Widgets)
    (W : World) (f : float -> float) :
  getitem FUNCTIONS (kind w) = Some f ->
  run_btn w = true ->
  noise_std w = 0%float ->
  exists out1 out2 W1 W2 m1 m2,
    rerun w W = (out1, W1)
    /\ rerun w W1 = (out2, W2)
    /\ trace W1 = trace W ++ [construction w (next_id W);
                              CallOptimize (next_id W) m1]
    /\ trace W2 = trace W1 ++ [construction w (next_id W1);
                               CallOptimize (next_id W1) m2]
    /\ same_problem m1 m2
    /\ noise_free m1
    /\ (repeatable ->
        out1 = out2
        /\ (out1 = Ok tt ->
            exists x y t1 t2,
              result (session W1)
              = Some {| xopt := x; yopt := y; elapsed := t1 |}
              /\ result (session W2)
                 = Some {| xopt := x; yopt := y; elapsed := t2 |})).
Proof.
  intros Hf Hrun Hzero.
  assert (Hfresh : forall V, starts_fresh w V = true)
    by (intros V; unfold starts_fresh; now rewrite Hrun).
  destruct (optimize (build_model w f (length (rngs (env W))))
              (fresh_handle w,
               set_ticks (S (ticks (env W))) (env_with_rng w (env W))))
    as [r1 [h1 e1]] eqn:Ho1.
  destruct (rerun_fresh_readback w W f r1 h1 e1 Hf (Hfresh W) Ho1)
    as (W1 & Hout1 & HW1 & _ & _ & Hres1).
  destruct (optimize (build_model w f (length (rngs (env W1))))
              (fresh_handle w,
               set_ticks (S (ticks (env W1))) (env_with_rng w (env W1))))
    as [r2 [h2 e2]] eqn:Ho2.
  destruct (rerun_fresh_readback w W1 f r2 h2 e2 Hf (Hfresh W1) Ho2)
    as (W2 & Hout2 & HW2 & _ & _ & Hres2).
  destruct (rerun_fresh_trace w W f Hf (Hfresh W)) as [Htr1 _].
  destruct (rerun_fresh_trace w W1 f Hf (Hfresh W1)) as [Htr2 _].
  rewrite HW1 in Htr1. rewrite HW2 in Htr2.
  exists (fst (rerun w W)), (fst (rerun w W1)), W1, W2,
    (build_model w f (length (rngs (env W)))),
    (build_model w f (length (rngs (env W1)))).
  split; [now rewrite <- HW1; destruct (rerun w W)|].
  split; [now rewrite <- HW2; destruct (rerun w W1)|].
  split; [exact Htr1|]. split; [exact Htr2|].
  split; [now repeat split|].
  split; [unfold noise_free; cbn; now rewrite Hzero|].
  intros Hrep.
  assert (Hsame : readback r1 h1 = readback r2 h2).
  { pose proof (Hrep (fresh_handle w)
                  (build_model w f (length (rngs (env W))))
                  (build_model w f (length (rngs (env W1))))
                  (set_ticks (S (ticks (env W))) (env_with_rng w (env W)))
                  (set_ticks (S (ticks (env W1))) (env_with_rng w (env W1))))
      as Hr.
    rewrite Ho1, Ho2 in Hr. cbn [fst snd] in Hr. apply Hr.
    - now repeat split.
    - unfold noise_free; cbn; now rewrite Hzero. }
  rewrite Hout1, Hout2, <- Hsame. split; [reflexivity|].
  intros Hok. rewrite <- Hsame in Hres2.
  destruct (readback r1 h1) as [[x y]|ex]; [|discriminate].
  destruct (Hres1 x y eq_refl) as [t1 Ht1].
  destruct (Hres2 x y eq_refl) as [t2 Ht2].
  now exists x, y, t1, t2.
Qed.

(** A rerun that is not a fresh start leaves the stored configuration. *)
Lemma rerun_not_fresh_last_cfg (w : Widgets) (W : World) :
  starts_fresh w W = false ->
  last_cfg (session (snd (rerun w W))) = last_cfg (session W).
Proof.
  intros Hfresh. unfold starts_fresh in Hfresh.
  apply orb_false_iff in Hfresh as [Hrun Hauto].
  unfold rerun.
  destruct (getitem FUNCTIONS (kind w)) as [f|]; [|reflexivity].
  unfold bind, ret, in_env, default_rng, decide_run, get; cbn.
  rewrite Hrun, Hauto.
  destruct (resume_btn w); cbn;
    destruct (solver (session W)) as [[i h]|] eqn:Hs; cbn;
    rewrite ?Hs; try reflexivity.
  destruct (new_stop w) as [stop|]; cbn; [|reflexivity].
  unfold solver_call, bind, ret, raise; cbn. rewrite Hs.
  destruct (resume stop _) as [r [h' e']].
  destruct r as [[]|ex]; reflexivity.
Qed.

(** A fresh start stores the current configuration, whatever its outcome. *)
Lemma rerun_fresh_last_cfg (w : Widgets) (W : World) (f : float -> float) :
  getitem FUNCTIONS (kind w) = Some f ->
  starts_fresh w W = true ->
  last_cfg (session (snd (rerun w W))) = Some (cfg w).
Proof.
  intros Hf Hfresh. rewrite (rerun_fresh w W f Hf Hfresh).
  destruct (optimize (build_model w f (length (rngs (env W))))
              (fresh_handle w,
               set_ticks (S (ticks (env W))) (env_with_rng w (env W))))
    as [r [h' e']] eqn:Ho.
  rewrite (run_block_held w _ (world_fresh w W) (next_id W) (fresh_handle w)
             h' r e' eq_refl Ho).
  destruct r as [[]|ex];
    [destruct (get_optimum h') as [y|ex];
     [destruct (get_optimizer h') as [[|x xs]|ex]|]|];
    reflexivity.
Qed.

(** A click on Resume reruns the script with the widget values of the rerun
    before it and with [run_btn] false.  Whatever that rerun did, the click
    finds neither trigger (1) nor trigger (2) applicable: the stored
    configuration is the current one whenever auto-run is on. *)
Theorem resume_click_is_not_a_fresh_start (w : Widgets) (W : World)
    (f : float -> float) :
  getitem FUNCTIONS (kind w) = Some f ->
  Cfg.eqb (cfg w) (cfg w) = true ->
  starts_fresh (press_resume w) (snd (rerun w W)) = false.
Proof.
  intros Hf Hrefl. unfold starts_fresh.
  change (cfg (press_resume w)) with (cfg w).
  cbn [run_btn auto_run press_resume orb].
  destruct (auto_run w) eqn:Hauto; [|reflexivity]. cbn [andb].
  destruct (starts_fresh w W) eqn:Hfresh.
  - rewrite (rerun_fresh_last_cfg w W f Hf Hfresh). cbn. now rewrite Hrefl.
  - rewrite (rerun_not_fresh_last_cfg w W Hfresh).
    unfold starts_fresh in Hfresh. rewrite Hauto in Hfresh.
    now apply orb_false_iff in Hfresh as [_ Hne].
Qed.

End Controller.

(** ** Sampling solvers: what the objective's generator sees *)

Section SamplingSolvers.
Context `{Numpy} (alg : Sampler).

#[local] Instance sampling : PyDDSBB Objective := sampler_solver alg.

Lemma advanced_0 (g : Generator) : advanced g 0 = g.
Proof. destruct g as [s d]. unfold advanced; cbn. f_equal. lia. Qed.

(** With noise, every sample draws once from the generator the objective
    captured: a search that took [k] samples leaves that generator [k]
    positions further and every other generator as it was. *)
Lemma sample_loop_draws (o : Objective) (bounds : list (float * float))
    (budget : nat) :
  (0 <? obj_noise_std o)%float = true ->
  forall (h : SamplerHandle alg) (e : Env) (g : Generator),
  rngs e !! obj_rng o = Some g ->
  exists r h' e',
    sample_loop alg budget o bounds (h, e) = (r, (h', e'))
    /\ (h_samples alg h <= h_samples alg h')%nat
    /\ rngs e'
       = <[obj_rng o := advanced g (h_samples alg h' - h_samples alg h)]> (rngs e)
    /\ h_model alg h' = h_model alg h
    /\ h_stop alg h' = h_stop alg h.
Proof.
  intros Hnoise. induction budget as [|budget IH]; intros h e g Hg.
  - eexists _, _, _; split; [reflexivity|].
    rewrite Nat.sub_diag, advanced_0, list_insert_id by exact Hg.
    repeat split; lia.
  - cbn [sample_loop].
    destruct (propose alg (h_search alg h) bounds) as [x|] eqn:Hp.
    2: { eexists _, _, _; split; [reflexivity|].
         rewrite Nat.sub_diag, advanced_0, list_insert_id by exact Hg.
         repeat split; lia. }
    unfold bind at 1. unfold sample_once.
    destruct x as [|xval x']; cbn [objective].
    + unfold raise. eexists _, _, _; split; [reflexivity|].
      rewrite Nat.sub_diag, advanced_0, list_insert_id by exact Hg.
      repeat split; lia.
    + rewrite (noisy_eval_draws _ _ _ _ _ g Hnoise Hg).
      pose proof (lookup_lt_Some _ _ _ Hg) as Hlt.
      match goal with
      | |- context [sample_loop alg budget o bounds (?h1, ?e1)] =>
          destruct (IH h1 e1 (advanced g 1)) as (r & h' & e' & Hrun & Hle & Hr & Hm & Hst)
      end.
      { cbn. rewrite list_lookup_insert_eq by exact Hlt.
        unfold advanced. do 2 f_equal. lia. }
      rewrite Hrun. cbn in Hle, Hr, Hm, Hst.
      eexists _, _, _; split; [reflexivity|].
      split; [lia|]. split; [|repeat split; assumption].
      rewrite Hr, list_insert_insert_eq. f_equal.
      unfold advanced; cbn. f_equal. lia.
Qed.

(** Without noise the samples and their values do not depend on the
    environment nor on which generator the objective captured: two searches
    from the same search state, count and budget, on objectives with the
    same base function, end in the same search state with the same
    outcome. *)
Lemma sample_loop_noise_free (o1 o2 : Objective)
    (bounds : list (float * float)) (budget : nat) :
  obj_f o1 = obj_f o2 ->
  (0 <? obj_noise_std o1)%float = false ->
  (0 <? obj_noise_std o2)%float = false ->
  forall (h1 h2 : SamplerHandle alg) (e1 e2 : Env),
  h_search alg h1 = h_search alg h2 ->
  h_samples alg h1 = h_samples alg h2 ->
  exists r h1' h2' e1' e2',
    sample_loop alg budget o1 bounds (h1, e1) = (r, (h1', e1'))
    /\ sample_loop alg budget o2 bounds (h2, e2) = (r, (h2', e2'))
    /\ h_search alg h1' = h_search alg h2'
    /\ h_samples alg h1' = h_samples alg h2'.
Proof.
  intros Hf Hn1 Hn2.
  induction budget as [|budget IH]; intros h1 h2 e1 e2 Hs Hc.
  - eexists _, _, _, _, _; repeat split; assumption.
  - cbn [sample_loop]. rewrite <- Hs.
    destruct (propose alg (h_search alg h1) bounds) as [x|] eqn:Hp.
    2: { eexists _, _, _, _, _; repeat split; assumption. }
    unfold bind. unfold sample_once.
    destruct x as [|xval x']; cbn [objective].
    + unfold raise. eexists _, _, _, _, _; repeat split; assumption.
    + rewrite !noisy_eval_deterministic by assumption.
      rewrite <- Hf, <- Hs, <- Hc.
      match goal with
      | |- context [sample_loop alg budget o1 bounds (?a, ?ea)] =>
          match goal with
          | |- context [sample_loop alg budget o2 bounds (?b, ?eb)] =>
              destruct (IH a b ea eb eq_refl eq_refl)
                as (r & h1' & h2' & e1' & e2' & Hr1 & Hr2 & Hs' & Hc')
          end
      end.
      rewrite Hr1, Hr2.
      eexists _, _, _, _, _; repeat split; assumption.
Qed.

Lemma optimize_fresh_draws (w : Widgets) (f : float -> float)
    (rngs0 : list Generator) (e : Env) :
  (0 <? noise_std w)%float = true ->
  rngs e = rngs0 ++ [{| gen_seed := seed w; gen_drawn := 0 |}] ->
  exists r h' e',
    optimize (build_model w f (length rngs0)) (fresh_handle w, e) = (r, (h', e'))
    /\ rngs e' = rngs0 ++ [{| gen_seed := seed w; gen_drawn := h_samples alg h' |}]
    /\ h_model alg h' = Some (build_model w f (length rngs0)).
Proof.
  intros Hnoise He. cbn [optimize sampling sampler_solver].
  unfold sampler_optimize, bind, modify, sampler_search, fresh_handle.
  cbn [DDSBB sampling sampler_solver sampler_new h_model h_search h_stop
       h_samples build_model add_variable add_objective Problem_new
       prob_objective prob_variables app].
  match goal with
  | |- context [sample_loop alg ?b ?o ?bs (?h, e)] =>
      destruct (sample_loop_draws o bs b Hnoise h e
                  {| gen_seed := seed w; gen_drawn := 0 |})
        as (r & h' & e' & Hrun & _ & Hr & Hm & _)
  end.
  { cbn [obj_rng]. rewrite He, lookup_app_r, Nat.sub_diag by lia. reflexivity. }
  rewrite Hrun. eexists _, _, _; split; [reflexivity|].
  cbn [h_samples h_model obj_rng] in Hr, Hm. split; [|exact Hm].
  rewrite Hr, He, insert_app_r_alt, Nat.sub_diag by lia. cbn.
  unfold advanced; cbn. do 3 f_equal. lia.
Qed.

Lemma resume_held_draws (stop : StopOption.t) (h : SamplerHandle alg)
    (e : Env) (m : Problem Objective) (o : Objective) (s : string)
    (g : Generator) :
  h_model alg h = Some m ->
  prob_objective m = Some (o, s) ->
  (0 <? obj_noise_std o)%float = true ->
  rngs e !! obj_rng o = Some g ->
  exists r h' e',
    resume stop (h, e) = (r, (h', e'))
    /\ (h_samples alg h <= h_samples alg h')%nat
    /\ rngs e'
       = <[obj_rng o := advanced g (h_samples alg h' - h_samples alg h)]> (rngs e).
Proof.
  intros Hm Ho Hnoise Hg. cbn [resume sampling sampler_solver].
  unfold sampler_resume, bind, modify, sampler_search.
  cbn [h_model]. rewrite Hm. destruct m as [po bounds]. cbn in Ho. subst po.
  match goal with
  | |- context [sample_loop alg ?b o bounds (?h1, e)] =>
      destruct (sample_loop_draws o bounds b Hnoise h1 e g Hg)
        as (r & h' & e' & Hrun & Hle & Hr & _ & _)
  end.
  rewrite Hrun. eexists _, _, _; split; [reflexivity|].
  cbn [h_samples] in Hle, Hr. split; assumption.
Qed.

(** C10, as the code has it: every run of the script builds a generator from
    the current seed, and the objective defined in that run captures it.  An
    explicit run hands that objective to the solver, so its noisy samples
    read the seeded stream from its start: after [k] samples the new
    generator stands at position [k].  A resume hands the solver the stopping
    criteria only, so its noisy samples are made by the objective the solver
    kept from its run: they continue that objective's generator where it
    stood, and the generator built in the resuming run stays at position 0. *)
Theorem noise_restarts_on_run_and_continues_on_resume (w : Widgets)
    (W : World) (f : float -> float) :
  getitem FUNCTIONS (kind w) = Some f ->
  (run_btn w = true -> (0 <? noise_std w)%float = true ->
   exists out W' h',
     rerun w W = (out, W')
     /\ solver (session W') = Some (next_id W, h')
     /\ h_model alg h' = Some (build_model w f (length (rngs (env W))))
     /\ rngs (env W')
        = rngs (env W)
          ++ [{| gen_seed := seed w; gen_drawn := h_samples alg h' |}])
  /\ (forall i h m o s g,
      starts_fresh w W = false -> resume_btn w = true ->
      10 <= sampling_limit w <= 20000 ->
      solver (session W) = Some (i, h) ->
      h_model alg h = Some m -> prob_objective m = Some (o, s) ->
      (0 <? obj_noise_std o)%float = true ->
      rngs (env W) !! obj_rng o = Some g ->
      exists out W' h',
        rerun w W = (out, W')
        /\ solver (session W') = Some (i, h')
        /\ (h_samples alg h <= h_samples alg h')%nat
        /\ rngs (env W')
           = <[obj_rng o := advanced g (h_samples alg h' - h_samples alg h)]>
               (rngs (env W))
             ++ [{| gen_seed := seed w; gen_drawn := 0 |}]).
Proof.
  intros Hf. split.
  - intros Hrun Hnoise.
    destruct (optimize_fresh_draws w f (rngs (env W))
                (set_ticks (S (ticks (env W))) (env_with_rng w (env W)))
                Hnoise eq_refl) as (r & h' & e' & Ho & Hr & Hm).
    assert (Hfresh : starts_fresh w W = true)
      by (unfold starts_fresh; now rewrite Hrun).
    rewrite (rerun_fresh w W f Hf Hfresh).
    rewrite (run_block_held w _ (world_fresh w W) (next_id W) (fresh_handle w)
               h' r e' eq_refl Ho).
    destruct r as [[]|ex];
      [destruct (get_optimum h') as [y|ex];
       [destruct (get_optimizer h') as [[|x xs]|ex]|]|];
      eexists _, _, _; (split; [reflexivity|]); cbn; repeat split; assumption.
  - intros i h m o s g Hfresh Hres Hrange Hs Hm Ho Hnoise Hg.
    pose proof (new_stop_in_range w Hrange) as Hstop.
    pose proof (lookup_lt_Some _ _ _ Hg) as Hlt.
    destruct (resume_held_draws
                (StopOption.with_sampling_limit (stop_option w)
                   (sampling_limit w + Z.max 100 (sampling_limit w / 2)))
                h (env_with_rng w (env W)) m o s g Hm Ho Hnoise)
      as (r & h' & e' & Hcall & Hle & Hr).
    { cbn. now rewrite lookup_app_l. }
    rewrite (rerun_resume w W f i h h' _ r e' Hf Hfresh Hres Hs Hstop Hcall).
    eexists _, _, _; split; [reflexivity|]. cbn.
    split; [reflexivity|]. split; [exact Hle|].
    rewrite Hr. cbn. now rewrite insert_app_l.
Qed.

Lemma readback_search (r : Res unit) (h1 h2 : SamplerHandle alg) :
  h_search alg h1 = h_search alg h2 -> readback r h1 = readback r h2.
Proof.
  intros Hs. unfold readback. cbn [get_optimum get_optimizer sampling sampler_solver].
  now rewrite Hs.
Qed.

(** Every sampling solver is repeatable: without noise the samples, their
    values and the incumbent do not depend on the clock nor on the generator
    the objective holds. *)
Lemma sampler_repeatable : repeatable.
Proof.
  intros h [po1 bs1] [po2 bs2] e1 e2 [Hv Ho] Hn.
  cbn [prob_variables prob_objective] in Hv, Ho. unfold noise_free in Hn.
  cbn [prob_objective] in Hn. subst bs2.
  cbn [optimize sampling sampler_solver].
  unfold sampler_optimize, bind, modify, sampler_search. cbn [h_model].
  destruct po1 as [[o1 s1]|], po2 as [[o2 s2]|]; try contradiction;
    [|reflexivity].
  destruct Ho as (Hf & Hsigma & _).
  assert (Hn2 : (0 <? obj_noise_std o2)%float = false) by (now rewrite <- Hsigma).
  match goal with
  | |- context [sample_loop alg ?b o1 bs1 (?h1, e1)] =>
      match goal with
      | |- context [sample_loop alg ?b2 o2 bs1 (?h2, e2)] =>
          change b2 with b;
          destruct (sample_loop_noise_free o1 o2 bs1 b Hf Hn Hn2
                      h1 h2 e1 e2 eq_refl eq_refl)
            as (r & h1' & h2' & e1' & e2' & Hr1 & Hr2 & Hs & _)
      end
  end.
  rewrite Hr1, Hr2. cbn [fst snd]. now apply readback_search.
Qed.
End SamplingSolvers.

(** ** Problem construction *)

Section ProblemConstruction.
Context `{Numpy} `{PyDDSBB Objective} `{PyDDSBB FitObjective}.

Lemma add_variables_bounds {O} (bs : list (float * float)) :
  forall m : Problem O,
  prob_variables (add_variables m bs) = prob_variables m ++ bs
  /\ prob_objective (add_variables m bs) = prob_objective m.
Proof.
  induction bs as [|[lb ub] bs IH]; intros m; cbn.
  - now rewrite app_nil_r.
  - destruct (IH (add_variable m lb ub)) as [Hv Ho].
    unfold add_variables in Hv, Ho. rewrite Hv, Ho. cbn.
    now rewrite <- app_assoc.
Qed.

(** Comparing two binary64 values the other way round gives the opposite
    answer. *)
Lemma SFcompare_antisym (a b : spec_float) :
  SFcompare b a = option_map CompOpp (SFcompare a b).
Proof.
  destruct a as [sa|sa| |sa ma ea], b as [sb|sb| |sb mb eb]; cbn;
    try reflexivity; try (destruct sa; reflexivity);
    try (destruct sb; reflexivity); try (destruct sa, sb; reflexivity).
  destruct sa, sb; cbn; try reflexivity;
    rewrite (Z.compare_antisym ea eb); destruct (ea ?= eb)%Z; cbn;
    try reflexivity;
    pose proof (Pos.compare_cont_antisym ma mb Eq) as Ha;
    cbn [CompOpp] in Ha; rewrite <- Ha;
    now rewrite ?CompOpp_involutive.
Qed.

Lemma SFcompare_None (a b : spec_float) :
  SFcompare a b = None -> a = S754_nan \/ b = S754_nan.
Proof.
  destruct a as [sa|sa| |sa ma ea], b as [sb|sb| |sb mb eb]; cbn;
    intros Hc; try discriminate; auto.
Qed.

Lemma is_finite_not_nan (x : float) :
  is_finite x = true -> Prim2SF x <> S754_nan.
Proof.
  intros Hfin Hnan. unfold is_finite, is_nan in Hfin.
  rewrite FloatAxioms.eqb_spec, Hnan in Hfin. discriminate.
Qed.

(** The check of the problem object refuses a pair of bounds exactly when
    one of them is not finite or the upper one is not above the lower
    one. *)
Lemma valid_bounds_false (lb ub : float) :
  valid_bounds lb ub = false <-> out_of_domain lb ub.
Proof.
  unfold valid_bounds, out_of_domain. split.
  - destruct (is_finite lb) eqn:Fl; [|now left].
    destruct (is_finite ub) eqn:Fu; [|now (right; left)].
    cbn. intros Hlt. right; right.
    rewrite FloatAxioms.ltb_spec in Hlt. rewrite FloatAxioms.leb_spec.
    unfold SFltb in Hlt. unfold SFleb.
    rewrite (SFcompare_antisym (Prim2SF lb) (Prim2SF ub)).
    destruct (SFcompare (Prim2SF lb) (Prim2SF ub)) as [[]|] eqn:Hc;
      cbn; try reflexivity; try discriminate.
    destruct (SFcompare_None _ _ Hc) as [Hn|Hn];
      [now apply is_finite_not_nan in Fl | now apply is_finite_not_nan in Fu].
  - intros [Fl | [Fu | Hle]].
    + now rewrite Fl.
    + rewrite Fu. now rewrite andb_false_r.
    + rewrite FloatAxioms.leb_spec in Hle. unfold SFleb in Hle.
      rewrite (SFcompare_antisym (Prim2SF lb) (Prim2SF ub)) in Hle.
      rewrite FloatAxioms.ltb_spec. unfold SFltb.
      destruct (SFcompare (Prim2SF lb) (Prim2SF ub)) as [[]|];
        cbn in Hle; try discriminate; now rewrite andb_false_r.
Qed.

Lemma valid_bounds_refused (bs : list (float * float)) :
  Exists (fun b => out_of_domain (fst b) (snd b)) bs ->
  forallb (fun b => valid_bounds (fst b) (snd b)) bs = false.
Proof.
  induction 1 as [b bs Hb | b bs _ IH]; cbn.
  - apply valid_bounds_false in Hb. now rewrite Hb.
  - rewrite IH. apply andb_false_r.
Qed.

Lemma valid_bounds_accepted (bs : list (float * float)) :
  Forall (fun b => ~ out_of_domain (fst b) (snd b)) bs ->
  forallb (fun b => valid_bounds (fst b) (snd b)) bs = true.
Proof.
  induction 1 as [|b bs Hb _ IH]; cbn; [reflexivity|].
  rewrite IH, andb_true_r.
  destruct (valid_bounds (fst b) (snd b)) eqn:Hv; [reflexivity|].
  now apply valid_bounds_false in Hv.
Qed.

(** The checked loop returns the problem the plain loop builds when every
    pair passes the check, and otherwise raises and leaves the state as it
    was. *)
Lemma add_variables_checked_run {S O} (bs : list (float * float)) :
  forall (m : Problem O) (s : S),
  add_variables_checked m bs s
  = if forallb (fun b => valid_bounds (fst b) (snd b)) bs
    then (Ok (add_variables m bs), s)
    else (Raise InvalidDomain, s).
Proof.
  induction bs as [|[lb ub] bs IH]; intros m s; cbn; [reflexivity|].
  unfold bind, add_variable_checked.
  destruct (valid_bounds lb ub); cbn; [apply IH | reflexivity].
Qed.

(** C7, on the problem object modelled from the specification: the
    construction accepts a pair of bounds when both are finite and the lower
    one is below the upper one, and fails with [InvalidDomain] when one of
    them is not finite or the upper one is not above the lower one.  In the
    fitting demo a refused pair among [var_bounds] makes [run_pyddsbb] raise
    [InvalidDomain] with no solver constructed and no call made; in the
    minimisation demo refused slider bounds make the rerun raise
    [InvalidDomain] with the session, the calls made and the identities as
    they were, only the generator of line 110 having been built.  With
    accepted bounds the checked construction returns the problem the
    applications hand to the solver, and both go on as without the check. *)
Theorem invalid_bounds_fail_before_any_solver_call (X y : list float)
    (model_fn : list float -> list float -> list float)
    (var_bounds : list (float * float)) (n_init : Z)
    (split_method variable_selection : string) (multifidelity : bool)
    (stop : StopOption.t) (st : Env * list (Event FitObjective))
    (w : Widgets) (W : World) (f : float -> float) :
  getitem FUNCTIONS (kind w) = Some f ->
  valid_sense (sense w) = true ->
  (Exists (fun b => out_of_domain (fst b) (snd b)) var_bounds ->
   run_pyddsbb_checked X y model_fn var_bounds n_init split_method
     variable_selection multifidelity stop st
   = (Raise InvalidDomain, st))
  /\ (Forall (fun b => ~ out_of_domain (fst b) (snd b)) var_bounds ->
      fit_model_checked X y model_fn var_bounds st
      = (Ok (fit_model X y model_fn var_bounds), st)
      /\ run_pyddsbb_checked X y model_fn var_bounds n_init split_method
           variable_selection multifidelity stop st
         = run_pyddsbb X y model_fn var_bounds n_init split_method
             variable_selection multifidelity stop st)
  /\ (out_of_domain (x_min w) (x_max w) ->
      rerun_checked w W
      = (Raise InvalidDomain, with_env (env_with_rng w (env W)) W))
  /\ (~ out_of_domain (x_min w) (x_max w) ->
      build_model_checked w f (length (rngs (env W)))
        (with_env (env_with_rng w (env W)) W)
      = (Ok (build_model w f (length (rngs (env W)))),
         with_env (env_with_rng w (env W)) W)
      /\ rerun_checked w W = rerun w W).
Proof.
  intros Hf Hsense.
  assert (Hfit : fit_model_checked X y model_fn var_bounds st
                 = if forallb (fun b => valid_bounds (fst b) (snd b)) var_bounds
                   then (Ok (fit_model X y model_fn var_bounds), st)
                   else (Raise InvalidDomain, st)).
  { unfold fit_model_checked, bind, add_objective_checked. cbn.
    apply add_variables_checked_run. }
  assert (Hmin : build_model_checked w f (length (rngs (env W)))
                   (with_env (env_with_rng w (env W)) W)
                 = if valid_bounds (x_min w) (x_max w)
                   then (Ok (build_model w f (length (rngs (env W)))),
                         with_env (env_with_rng w (env W)) W)
                   else (Raise InvalidDomain,
                         with_env (env_with_rng w (env W)) W)).
  { unfold build_model_checked, bind, add_objective_checked,
      add_variable_checked. rewrite Hsense. cbn.
    now destruct (valid_bounds (x_min w) (x_max w)). }
  assert (Hrun : rerun_checked w W
                 = match build_model_checked w f (length (rngs (env W)))
                           (with_env (env_with_rng w (env W)) W) with
                   | (Ok _, _) => rerun w W
                   | (Raise ex, V) => (Raise ex, V)
                   end).
  { rewrite Hmin. unfold rerun_checked, rerun. rewrite Hf.
    unfold bind at 1 2. unfold ret at 1. unfold in_env at 1, default_rng.
    cbn [env fst snd].
    change {| session := session W;
              env := set_rngs (rngs (env W)
                               ++ [{| gen_seed := seed w; gen_drawn := 0 |}])
                       (env W);
              next_id := next_id W; trace := trace W |}
      with (with_env (env_with_rng w (env W)) W).
    unfold bind at 1. rewrite Hmin.
    destruct (valid_bounds (x_min w) (x_max w)); [|reflexivity].
    unfold bind at 3 4, ret at 3, in_env at 1, default_rng.
    reflexivity. }
  split; [|split; [|split]].
  - intros Hbad. unfold run_pyddsbb_checked, bind.
    now rewrite Hfit, (valid_bounds_refused _ Hbad).
  - intros Hgood. rewrite (valid_bounds_accepted _ Hgood) in Hfit.
    split; [exact Hfit|].
    unfold run_pyddsbb_checked, bind. now rewrite Hfit.
  - intros Hbad. apply valid_bounds_false in Hbad.
    rewrite Hrun, Hmin, Hbad. reflexivity.
  - intros Hgood.
    destruct (valid_bounds (x_min w) (x_max w)) eqn:Hv;
      [|now apply valid_bounds_false in Hv].
    split; [exact Hmin|]. now rewrite Hrun, Hmin.
Qed.
End ProblemConstruction.

(** * Concrete runs *)

Lemma triple_eta {A B C} (x : A * (B * C)) :
  x = (fst x, (fst (snd x), snd (snd x))).
Proof. now destruct x as [a [b c]]. Defined.

Section ConcreteRuns.
#[local] Existing Instance Stub.numpy.
#[local] Existing Instance Stub.solver.
#[local] Open Scope float_scope.

(** ** Bounds the problem object refuses *)

(** The fitting demo with an unbounded second variable, and an explicit run
    of the minimisation demo on inverted bounds: both raise [InvalidDomain]
    and make no call. *)
Lemma invalid_bounds_witness :
  @run_pyddsbb_checked Stub.corner [] [] (fun _ _ => [])
    [(-2, 2); (0, infinity)] 5 "equal_bisection" "longest_side" false
    (stop_option Stub.widgets) (Stub.env0, [])
  = (Raise InvalidDomain, (Stub.env0, []))
  /\ fst (rerun_checked (press_run w_inverted) Stub.world0)
     = Raise InvalidDomain
  /\ trace (snd (rerun_checked (press_run w_inverted) Stub.world0)) = []
  /\ session (snd (rerun_checked (press_run w_inverted) Stub.world0))
     = session_init.
Proof.
  destruct (@invalid_bounds_fail_before_any_solver_call
              Stub.numpy Stub.solver Stub.corner [] [] (fun _ _ => [])
              [(-2, 2); (0, infinity)] 5 "equal_bisection" "longest_side"
              false (stop_option Stub.widgets) (Stub.env0, [])
              (press_run w_inverted) Stub.world0 f_linear eq_refl eq_refl)
    as (Hfit & _ & Hmin & _).
  split.
  - apply Hfit. right. left. right. left. reflexivity.
  - rewrite Hmin by (right; right; reflexivity).
    repeat split.
Defined.

(** ** The minimisation demo: a session with the sweeping solver *)

(** C1 at a concrete session: a run that stops at its sampling limit of ten
    stores the best of its ten samples; the Resume that follows calls
    [resume] on the same solver with the limit raised to 110, and the solver
    then holds a better optimum (input 1, value 1), yet [result] is still the
    one the run stored. *)
Lemma resume_leaves_result_stale :
  result (session (after_run w_max))
  = Some {| xopt := 0.125; yopt := -0.75; elapsed := 30.25 |}
  /\ (exists stop,
        trace (after_resume w_max)
        = trace (after_run w_max) ++ [CallResume 0 stop]
        /\ StopOption.sampling_limit stop = 110%Z)
  /\ (exists h, solver (session (after_resume w_max)) = Some (0%nat, h)
               /\ get_optimum h = Ok 1 /\ get_optimizer h = Ok [1])
  /\ result (session (after_resume w_max))
     = Some {| xopt := 0.125; yopt := -0.75; elapsed := 30.25 |}.
Proof.
  split; [vm_compute; reflexivity|].
  split; [eexists; split; vm_compute; reflexivity|].
  split; [eexists; split; [vm_compute; reflexivity|split; vm_compute; reflexivity]|].
  vm_compute; reflexivity.
Qed.

(** Against C2 as stated: at a sampling limit of 203 the bundle handed to
    [resume] carries 203 + 101 = 304, the half truncated, where
    [max(100, round(0.5 * 203))] would give 203 + 102 = 305. *)
Lemma resume_limit_truncates_the_half :
  exists stop,
    trace (after_resume w_203) = trace (after_run w_203) ++ [CallResume 0 stop]
    /\ StopOption.sampling_limit stop = 304%Z
    /\ (203 + Z.max 100 (spec_round_half 203) = 305)%Z
    /\ StopOption.sampling_limit stop
       <> (sampling_limit w_203 + Z.max 100 (spec_round_half (sampling_limit w_203)))%Z.
Proof.
  eexists. split; [vm_compute; reflexivity|].
  split; [reflexivity|]. split; [reflexivity|]. vm_compute. discriminate.
Qed.

Lemma resume_passes_expanded_bundle_witness :
  exists stop,
    trace (after_resume Stub.widgets)
    = trace (after_run Stub.widgets) ++ [CallResume 0 stop]
    /\ StopOption.sampling_limit stop = 1200%Z.
Proof.
  assert (Hheld : exists h, solver (session (after_run Stub.widgets)) = Some (0%nat, h))
    by (eexists; vm_compute; reflexivity).
  destruct Hheld as [h Hheld].
  destruct (resume_passes_expanded_bundle (press_resume Stub.widgets)
              (after_run Stub.widgets) f_linear 0 h eq_refl eq_refl eq_refl
              Hheld ltac:(cbn; lia))
    as (stop & out & W' & Hrun & Htr & Hlim & _).
  exists stop. unfold after_resume. rewrite Hrun. cbn [snd].
  split; [exact Htr|]. rewrite Hlim. reflexivity.
Defined.

Lemma run_stores_result_witness :
  exists out W',
    run_block Stub.widgets (build_model Stub.widgets f_linear 0%nat)
      (after_run Stub.widgets) = (out, W')
    /\ out = Ok tt
    /\ option_map xopt (result (session W')) = Some (-1)
    /\ option_map yopt (result (session W')) = Some (-3).
Proof.
  assert (Hheld : exists h, solver (session (after_run Stub.widgets)) = Some (0%nat, h))
    by (eexists; vm_compute; reflexivity).
  destruct Hheld as [h Hheld].
  pose (X := optimize (build_model Stub.widgets f_linear 0%nat)
               (h, set_ticks (S (ticks (env (after_run Stub.widgets))))
                     (env (after_run Stub.widgets)))).
  destruct (run_stores_result_or_propagates Stub.widgets
              (build_model Stub.widgets f_linear 0%nat) (after_run Stub.widgets)
              0 h (fst (snd X)) (fst X) (snd (snd X)) Hheld (triple_eta X))
    as (out & W' & Hrun & _ & _ & _ & _ & Hok).
  assert (Hh : Some (0%nat, h) = solver (session (after_run Stub.widgets)))
    by (now rewrite Hheld).
  vm_compute in Hh. injection Hh as ->.
  destruct (Hok (-3) (-1) [] ltac:(vm_compute; reflexivity)
              ltac:(vm_compute; reflexivity) ltac:(vm_compute; reflexivity))
    as [Hout Hres].
  exists out, W'. split; [exact Hrun|]. split; [exact Hout|].
  rewrite Hres. split; reflexivity.
Defined.

(** A solver that fails in [optimize]: the exception leaves the script, the
    new solver and the configuration are stored, [result] stays absent. *)
Lemma failing_optimizer_propagates :
  let run := @rerun Stub.numpy Stub.failing (press_run Stub.widgets)
               (@Stub.world0 Stub.failing) in
  fst run = Raise (LibraryError "glpk")
  /\ result (session (snd run)) = None
  /\ last_cfg (session (snd run)) = Some (cfg (press_run Stub.widgets))
  /\ solver (session (snd run)) = Some (0%nat, tt).
Proof. cbv zeta. repeat split; vm_compute; reflexivity. Qed.

Lemma explicit_run_witness :
  exists out W',
    rerun (press_run Stub.widgets) (after_run Stub.widgets) = (out, W')
    /\ out = Ok tt
    /\ last_cfg (session (after_run Stub.widgets))
       = Some (cfg (press_run Stub.widgets))
    /\ (exists h', solver (session W') = Some (1%nat, h'))
    /\ result (session W')
       = Some {| xopt := -1; yopt := -3; elapsed := 252 |}.
Proof.
  pose (W := after_run Stub.widgets).
  pose (w := press_run Stub.widgets).
  pose (X := optimize (build_model w f_linear (length (rngs (env W))))
               (fresh_handle w,
                set_ticks (S (ticks (env W))) (env_with_rng w (env W)))).
  destruct (explicit_run_replaces_solver_and_runs w W f_linear (fst X)
              (fst (snd X)) (snd (snd X)) eq_refl eq_refl (triple_eta X))
    as (out & W' & Hrun & Hs & _ & _ & _ & Hok).
  destruct (Hok (-3) (-1) [] ltac:(vm_compute; reflexivity)
              ltac:(vm_compute; reflexivity) ltac:(vm_compute; reflexivity))
    as [Hout Hres].
  exists out, W'. split; [exact Hrun|]. split; [exact Hout|].
  split; [vm_compute; reflexivity|].
  split; [eexists; rewrite Hs; vm_compute; reflexivity|].
  rewrite Hres. vm_compute. reflexivity.
Defined.

Lemma after_run_world_ok (w : Widgets) : world_ok (after_run w).
Proof.
  apply rerun_world_ok. split; [intros j h0 [=] | constructor].
Defined.

Lemma auto_run_witness :
  exists out W' calls,
    rerun w_auto (after_run Stub.widgets) = (out, W')
    /\ trace W' = trace (after_run Stub.widgets) ++ calls
    /\ Forall (fun ev => event_id ev = 1%nat) calls
    /\ last_cfg (session W') = Some (cfg w_auto).
Proof.
  pose (W := after_run Stub.widgets).
  pose (X := optimize (build_model w_auto f_linear (length (rngs (env W))))
               (fresh_handle w_auto,
                set_ticks (S (ticks (env W))) (env_with_rng w_auto (env W)))).
  assert (Hstale : stale w_auto W).
  { unfold stale. replace (last_cfg (session W))
      with (Some (cfg (press_run Stub.widgets))) by (vm_compute; reflexivity).
    unfold differs_in_some_field. do 3 right. left. reflexivity. }
  destruct (auto_run_replaces_stale_solver w_auto W f_linear (fst X)
              (fst (snd X)) (snd (snd X)) eq_refl eq_refl Hstale
              (after_run_world_ok Stub.widgets) (triple_eta X))
    as (out & W' & calls & Hrun & _ & Hc & Htr & Hcalls & _).
  exists out, W', calls. split; [exact Hrun|]. split; [exact Htr|].
  split; [|exact Hc].
  rewrite Hcalls. repeat constructor.
Defined.

Lemma resume_noop_witness :
  exists W',
    rerun (press_resume Stub.widgets) Stub.world0 = (Ok tt, W')
    /\ session W' = session_init
    /\ trace W' = [].
Proof.
  destruct (resume_without_solver_is_noop (press_resume Stub.widgets)
              Stub.world0 f_linear eq_refl eq_refl eq_refl eq_refl)
    as (W' & Hrun & Hs & Htr & _).
  exists W'. split; [exact Hrun|]. split; assumption.
Defined.

Lemma noise_free_objective_witness :
  calls {| obj_f := f_linear; obj_noise_std := 0; obj_rng := 0%nat |}
    [-1; 0.5; 0.5; 1] Stub.env0
  = (Ok [-3; 0; 0; 1], Stub.env0).
Proof.
  exact (noise_free_objective_is_base_function
           {| obj_f := f_linear; obj_noise_std := 0; obj_rng := 0%nat |}
           [-1; 0.5; 0.5; 1] Stub.env0 eq_refl).
Defined.

(** Against C9 as stated: two consecutive explicit runs with the same widget
    values, no noise and seed 42 do not store the same [result].  With the
    sweeping solver they store the same best input and value, and elapsed
    times of 81 and 252 seconds on a clock that does not run evenly.  With
    the solver that stops on its time limit of 20 seconds, the second run
    gets fewer samples in on that clock, and the stored best input and best
    value differ as well. *)
Lemma consecutive_runs_store_different_results :
  (let W1 := after_run Stub.widgets in
   let W2 := snd (rerun (press_run Stub.widgets) W1) in
   noise_std Stub.widgets = 0 /\ seed Stub.widgets = 42%Z
   /\ result (session W1) = Some {| xopt := -1; yopt := -3; elapsed := 81 |}
   /\ result (session W2) = Some {| xopt := -1; yopt := -3; elapsed := 252 |}
   /\ result (session W1) <> result (session W2))
  /\ (noise_std w_maximize = 0 /\ seed w_maximize = 42%Z
      /\ result (session (timed_first w_maximize))
         = Some {| xopt := -0.125; yopt := -1.25; elapsed := 20.25 |}
      /\ result (session (timed_second w_maximize))
         = Some {| xopt := -0.625; yopt := -2.25; elapsed := 31.25 |}
      /\ (xopt <$> result (session (timed_first w_maximize)))
         <> (xopt <$> result (session (timed_second w_maximize)))
      /\ (yopt <$> result (session (timed_first w_maximize)))
         <> (yopt <$> result (session (timed_second w_maximize)))).
Proof.
  cbv zeta.
  assert (H1 : result (session (after_run Stub.widgets))
               = Some {| xopt := -1; yopt := -3; elapsed := 81 |})
    by (vm_compute; reflexivity).
  assert (H2 : result (session (snd (rerun (press_run Stub.widgets)
                                       (after_run Stub.widgets))))
               = Some {| xopt := -1; yopt := -3; elapsed := 252 |})
    by (vm_compute; reflexivity).
  assert (T1 : result (session (timed_first w_maximize))
               = Some {| xopt := -0.125; yopt := -1.25; elapsed := 20.25 |})
    by (vm_compute; reflexivity).
  assert (T2 : result (session (timed_second w_maximize))
               = Some {| xopt := -0.625; yopt := -2.25; elapsed := 31.25 |})
    by (vm_compute; reflexivity).
  split.
  - repeat split; try assumption; try reflexivity.
    rewrite H1, H2. discriminate.
  - split; [reflexivity|]. split; [reflexivity|].
    split; [exact T1|]. split; [exact T2|].
    rewrite T1, T2. split; cbn; discriminate.
Qed.

Lemma consecutive_noise_free_runs_witness :
  exists out W1 W2 x y t1 t2,
    rerun (press_run Stub.widgets) Stub.world0 = (out, W1)
    /\ rerun (press_run Stub.widgets) W1 = (out, W2)
    /\ result (session W1) = Some {| xopt := x; yopt := y; elapsed := t1 |}
    /\ result (session W2) = Some {| xopt := x; yopt := y; elapsed := t2 |}.
Proof.
  destruct (@consecutive_noise_free_runs_agree_up_to_the_solver
              Stub.numpy Stub.solver (press_run Stub.widgets) Stub.world0
              f_linear eq_refl eq_refl eq_refl)
    as (out1 & out2 & W1 & W2 & m1 & m2 & Hr1 & Hr2 & _ & _ & _ & _ & Hrep).
  destruct (Hrep (@sampler_repeatable Stub.numpy Stub.sweep)) as [Hout Hok].
  assert (Hout1 : out1 = Ok tt).
  { apply (f_equal fst) in Hr1. cbn [fst] in Hr1. rewrite <- Hr1.
    vm_compute. reflexivity. }
  destruct (Hok Hout1) as (x & y & t1 & t2 & H1 & H2).
  exists out1, W1, W2, x, y, t1, t2. rewrite <- Hout in Hr2.
  repeat split; assumption.
Defined.

(** The solver that stops on its time limit is not repeatable: the same
    problem from the same solver object ends with another optimum when the
    call begins at another instant. *)
Lemma timed_solver_is_not_repeatable : ~ @repeatable Stub.timed.
Proof.
  intros Hrep.
  pose proof (Hrep (@fresh_handle Stub.timed w_maximize)
                (build_model w_maximize f_linear 0%nat)
                (build_model w_maximize f_linear 0%nat)
                (set_ticks 1 Stub.env0) (set_ticks 11 Stub.env0)) as Hr.
  assert (H1 : @readback Stub.timed
                 (fst (@optimize _ Stub.timed
                         (build_model w_maximize f_linear 0%nat)
                         (@fresh_handle Stub.timed w_maximize,
                          set_ticks 1 Stub.env0)))
                 (fst (snd (@optimize _ Stub.timed
                              (build_model w_maximize f_linear 0%nat)
                              (@fresh_handle Stub.timed w_maximize,
                               set_ticks 1 Stub.env0))))
               = Ok (-0.125, -1.25)) by (vm_compute; reflexivity).
  assert (H2 : @readback Stub.timed
                 (fst (@optimize _ Stub.timed
                         (build_model w_maximize f_linear 0%nat)
                         (@fresh_handle Stub.timed w_maximize,
                          set_ticks 11 Stub.env0)))
                 (fst (snd (@optimize _ Stub.timed
                              (build_model w_maximize f_linear 0%nat)
                              (@fresh_handle Stub.timed w_maximize,
                               set_ticks 11 Stub.env0))))
               = Ok (-0.625, -2.25)) by (vm_compute; reflexivity).
  rewrite H1, H2 in Hr.
  assert (Heq : @Ok (float * float) (-0.125, -1.25) = Ok (-0.625, -2.25)).
  { apply Hr; [now repeat split | reflexivity]. }
  discriminate.
Qed.

(** Against C10 as stated: a run with noise 0.25 that takes ten samples
    leaves its generator at position 10; the Resume that follows builds a
    second generator from the same seed, takes seven more samples, and leaves
    the first generator at position 17 and the second at position 0.  The
    eleventh sample, the first of the resume, carries the stream's value at
    position 10, not the one at position 0. *)
Lemma resume_continues_the_noise_stream :
  rngs (env (after_run w_noisy)) = [{| gen_seed := 42; gen_drawn := 10 |}]
  /\ rngs (env (after_resume w_noisy))
     = [{| gen_seed := 42; gen_drawn := 17 |};
        {| gen_seed := 42; gen_drawn := 0 |}]
  /\ (exists h, solver (session (after_resume w_noisy)) = Some (0%nat, h)
       /\ snd <$> (snd (h_search Stub.sweep h) !! 10%nat)
          = Some (f_linear 0.25 + (0 + 0.25 * standard_normal 42 10))
       /\ snd <$> (snd (h_search Stub.sweep h) !! 10%nat)
          <> Some (f_linear 0.25 + (0 + 0.25 * standard_normal 42 0))).
Proof.
  split; [vm_compute; reflexivity|]. split; [vm_compute; reflexivity|].
  eexists. split; [vm_compute; reflexivity|].
  split; [vm_compute; reflexivity|].
  vm_compute. discriminate.
Qed.

Lemma noise_restarts_and_continues_witness :
  (exists out W' h',
     rerun (press_run w_noisy) Stub.world0 = (out, W')
     /\ solver (session W') = Some (0%nat, h')
     /\ rngs (env W')
        = [{| gen_seed := 42; gen_drawn := h_samples Stub.sweep h' |}])
  /\ (exists out W' h h',
       solver (session (after_run w_noisy)) = Some (0%nat, h)
       /\ rerun (press_resume w_noisy) (after_run w_noisy) = (out, W')
       /\ solver (session W') = Some (0%nat, h')
       /\ rngs (env W')
          = [{| gen_seed := 42;
                gen_drawn := 10 + (h_samples Stub.sweep h'
                                   - h_samples Stub.sweep h) |};
             {| gen_seed := 42; gen_drawn := 0 |}]).
Proof.
  split.
  - destruct (noise_restarts_on_run_and_continues_on_resume Stub.sweep
                (press_run w_noisy) Stub.world0 f_linear eq_refl)
      as [Hrun _].
    destruct (Hrun eq_refl eq_refl) as (out & W' & h' & Hr & Hs & _ & Hg).
    exists out, W', h'. repeat split; assumption.
  - destruct (noise_restarts_on_run_and_continues_on_resume Stub.sweep
                (press_resume w_noisy) (after_run w_noisy) f_linear eq_refl)
      as [_ Hres].
    destruct (solver (session (after_run w_noisy))) as [[i h]|] eqn:Hheld;
      [|exfalso; vm_compute in Hheld; discriminate].
    assert (Hi : i = 0%nat).
    { assert (Hx : fst <$> solver (session (after_run w_noisy)) = Some 0%nat)
        by (vm_compute; reflexivity).
      rewrite Hheld in Hx. cbn in Hx. now injection Hx. }
    subst i.
    assert (Hm : h_model Stub.sweep h
                 = Some (build_model (press_run w_noisy) f_linear 0%nat)).
    { assert (Hx : h_model Stub.sweep <$> (snd <$> solver (session (after_run w_noisy)))
                   = Some (Some (build_model (press_run w_noisy) f_linear 0%nat)))
        by (vm_compute; reflexivity).
      rewrite Hheld in Hx. cbn in Hx. now injection Hx. }
    destruct (Hres 0%nat h _ _ _ {| gen_seed := 42; gen_drawn := 10 |}
                eq_refl eq_refl ltac:(cbn; lia) Hheld Hm eq_refl eq_refl
                ltac:(vm_compute; reflexivity))
      as (out & W' & h' & Hr & Hs & _ & Hg).
    exists out, W', h, h'. repeat split; try assumption.
Defined.

(** The expansion is computed from the widget, not from the limit the solver
    runs under: after a run with a limit of 800, lowering the
    [sampling_limit] widget to 100 (auto-run off) and pressing Resume hands
    the solver a limit of 200. *)
Lemma resume_after_lowering_the_limit_passes_less :
  let w := Stub.with_noise 0 100 Stub.widgets in
  let W := snd (rerun (press_resume w) (after_run Stub.widgets)) in
  (exists h, solver (session (after_run Stub.widgets)) = Some (0%nat, h)
             /\ StopOption.sampling_limit (h_stop Stub.sweep h) = 800%Z)
  /\ exists stop,
       trace W = trace (after_run Stub.widgets) ++ [CallResume 0 stop]
       /\ StopOption.sampling_limit stop = 200%Z.
Proof.
  cbv zeta. split.
  - eexists. split; vm_compute; reflexivity.
  - eexists. split; vm_compute; reflexivity.
Qed.

Lemma resume_keeps_result_witness :
  result (session (after_resume w_max)) = result (session (after_run w_max)).
Proof.
  assert (Hheld : exists h, solver (session (after_run w_max)) = Some (0%nat, h))
    by (eexists; vm_compute; reflexivity).
  destruct Hheld as [h Hheld].
  exact (resume_keeps_result (press_resume w_max) (after_run w_max)
           f_linear 0 h eq_refl eq_refl eq_refl Hheld ltac:(cbn; lia)).
Defined.

Lemma resume_click_witness :
  starts_fresh (press_resume w_auto) (snd (rerun w_auto Stub.world0))
  = false.
Proof.
  exact (resume_click_is_not_a_fresh_start w_auto Stub.world0 f_linear
           eq_refl eq_refl).
Defined.
End ConcreteRuns.

(** * Sessions: what holds after any sequence of interactions *)

Section Sessions.
Context `{Numpy} `{PyDDSBB Objective}.

(** What one rerun can do to the session and to the calls made: nothing; a
    fresh start, which constructs a solver and calls [optimize] on it; or a
    resume of the held solver. *)
Lemma rerun_cases (w : Widgets) (W : World) :
  (session (snd (rerun w W)) = session W
   /\ trace (snd (rerun w W)) = trace W
   /\ next_id (snd (rerun w W)) = next_id W)
  \/ (exists h' model,
        solver (session (snd (rerun w W))) = Some (next_id W, h')
        /\ last_cfg (session (snd (rerun w W))) = Some (cfg w)
        /\ (result (session (snd (rerun w W))) = result (session W)
            \/ is_Some (result (session (snd (rerun w W)))))
        /\ trace (snd (rerun w W))
           = trace W ++ [construction w (next_id W);
                         CallOptimize (next_id W) model]
        /\ next_id (snd (rerun w W)) = S (next_id W)
        /\ starts_fresh w W = true)
  \/ (exists i h h' stop,
        solver (session W) = Some (i, h)
        /\ solver (session (snd (rerun w W))) = Some (i, h')
        /\ last_cfg (session (snd (rerun w W))) = last_cfg (session W)
        /\ result (session (snd (rerun w W))) = result (session W)
        /\ trace (snd (rerun w W)) = trace W ++ [CallResume i stop]
        /\ next_id (snd (rerun w W)) = next_id W
        /\ new_stop w = Some stop
        /\ starts_fresh w W = false).
Proof.
  destruct (getitem FUNCTIONS (kind w)) as [f|] eqn:Hf.
  2: { left. unfold rerun. rewrite Hf. cbn. now repeat split. }
  destruct (starts_fresh w W) eqn:Hfresh.
  - right. left.
    rewrite (rerun_fresh w W f Hf Hfresh).
    destruct (optimize (build_model w f (length (rngs (env W))))
                (fresh_handle w,
                 set_ticks (S (ticks (env W))) (env_with_rng w (env W))))
      as [r [h' e']] eqn:Ho.
    rewrite (run_block_held w _ (world_fresh w W) (next_id W)
               (fresh_handle w) h' r e' eq_refl Ho).
    exists h', (build_model w f (length (rngs (env W)))).
    destruct r as [[]|ex];
      [destruct (get_optimum h') as [y|ex];
       [destruct (get_optimizer h') as [[|x xs]|ex]|]|];
      unfold with_result, with_env, world_optimized, world_fresh; cbn;
      rewrite <- ?app_assoc; cbn;
      repeat split; try (left; reflexivity); try (right; eexists; reflexivity).
  - pose proof Hfresh as Hfresh'. unfold starts_fresh in Hfresh.
    apply orb_false_iff in Hfresh as [Hrun Hauto].
    unfold rerun. rewrite Hf.
    unfold bind, ret, in_env, default_rng, decide_run, get; cbn.
    rewrite Hrun, Hauto.
    destruct (resume_btn w); cbn;
      destruct (solver (session W)) as [[i h]|] eqn:Hs; cbn;
      rewrite ?Hs; try (left; now repeat split).
    destruct (new_stop w) as [stop|] eqn:Hstop; cbn;
      [|left; now repeat split].
    right. right.
    unfold solver_call, bind, ret, raise; cbn. rewrite Hs.
    destruct (resume stop _) as [r [h' e']].
    exists i, h, h', stop.
    destruct r as [[]|ex]; cbn; now repeat split.
Qed.

Lemma run_session_snoc (ws : list Widgets) (w : Widgets) (W : World) :
  run_session (ws ++ [w]) W = snd (rerun w (run_session ws W)).
Proof. unfold run_session. now rewrite fold_left_app. Qed.

(** What holds at the start of a session and is kept by every rerun holds
    after every session. *)
Lemma session_induction (P : World -> Prop) (e : Env) :
  P (start_world e) ->
  (forall W w, P W -> P (snd (rerun w W))) ->
  forall ws, P (run_session ws (start_world e)).
Proof.
  intros Hstart Hstep ws. induction ws as [|w ws IH] using rev_ind.
  - exact Hstart.
  - rewrite run_session_snoc. now apply Hstep.
Qed.

(** One rerun forgets none of the three keys of the session: a key that
    holds a value before the rerun holds one after it. *)
Lemma rerun_keeps_keys (w : Widgets) (W : World) :
  (is_Some (solver (session W)) -> is_Some (solver (session (snd (rerun w W)))))
  /\ (is_Some (last_cfg (session W))
      -> is_Some (last_cfg (session (snd (rerun w W)))))
  /\ (is_Some (result (session W))
      -> is_Some (result (session (snd (rerun w W))))).
Proof.
  destruct (rerun_cases w W)
    as [(Hs & _) | [(h' & model & Hsol & Hlast & Hr & _)
                   | (i & h & h' & stop & Hheld & Hsol & Hlast & Hr & _)]].
  - rewrite Hs. split; [|split]; trivial.
  - split; [|split].
    + intros _. rewrite Hsol. eexists; reflexivity.
    + intros _. rewrite Hlast. eexists; reflexivity.
    + intros Hres. destruct Hr as [Hr|Hr]; [now rewrite Hr | exact Hr].
  - rewrite Hsol, Hlast, Hr. split; [|split]; trivial.
Qed.

(** After any sequence of interactions from the start of a session, a
    stored result comes with a stored configuration, and a stored
    configuration with a held solver: the script never shows an optimum
    without holding the solver that can be resumed.  And whatever
    interactions follow, none of the three keys is forgotten: a session that
    holds a solver (a stored configuration, a stored result) still holds one
    after them. *)
Theorem session_keys_nest_and_persist (ws ws' : list Widgets) (e : Env) :
  (is_Some (result (session (run_session ws (start_world e)))) ->
   is_Some (last_cfg (session (run_session ws (start_world e)))))
  /\ (is_Some (last_cfg (session (run_session ws (start_world e)))) ->
      is_Some (solver (session (run_session ws (start_world e)))))
  /\ (is_Some (solver (session (run_session ws (start_world e)))) ->
      is_Some (solver (session (run_session (ws ++ ws') (start_world e)))))
  /\ (is_Some (last_cfg (session (run_session ws (start_world e)))) ->
      is_Some (last_cfg (session (run_session (ws ++ ws') (start_world e)))))
  /\ (is_Some (result (session (run_session ws (start_world e)))) ->
      is_Some (result (session (run_session (ws ++ ws') (start_world e))))).
Proof.
  split; [|split].
  - revert ws. apply (session_induction
      (fun W => is_Some (result (session W)) -> is_Some (last_cfg (session W)))).
    + cbn. intros [x Hx]; discriminate.
    + intros W w Hres.
      destruct (rerun_cases w W)
        as [(Hs & _) | [(h' & model & Hsol & Hlast & Hr & _)
                       | (i & h & h' & stop & Hheld & Hsol & Hlast & Hr & _)]].
      * now rewrite Hs.
      * rewrite Hlast. intros _. eexists; reflexivity.
      * now rewrite Hlast, Hr.
  - revert ws. apply (session_induction
      (fun W => is_Some (last_cfg (session W)) -> is_Some (solver (session W)))).
    + cbn. intros [x Hx]; discriminate.
    + intros W w Hcfg.
      destruct (rerun_cases w W)
        as [(Hs & _) | [(h' & model & Hsol & Hlast & Hr & _)
                       | (i & h & h' & stop & Hheld & Hsol & Hlast & Hr & _)]].
      * now rewrite Hs.
      * rewrite Hsol. intros _. eexists; reflexivity.
      * rewrite Hsol. intros _. eexists; reflexivity.
  - induction ws' as [|w ws' IH] using rev_ind.
    + rewrite app_nil_r. split; [|split]; trivial.
    + rewrite app_assoc, run_session_snoc.
      destruct IH as (IHs & IHc & IHr).
      destruct (rerun_keeps_keys w (run_session (ws ++ ws') (start_world e)))
        as (Ks & Kc & Kr).
      split; [|split]; intros Hh;
        [apply Ks, IHs | apply Kc, IHc | apply Kr, IHr]; exact Hh.
Qed.

Lemma latest_app {O} (c : option nat) (tr tr' : list (Event O)) :
  latest c (tr ++ tr') = latest (latest c tr) tr'.
Proof. unfold latest. now rewrite fold_left_app. Qed.

Lemma targets_latest_app {O} (tr tr' : list (Event O)) :
  forall c, targets_latest c (tr ++ tr')
            <-> targets_latest c tr /\ targets_latest (latest c tr) tr'.
Proof.
  induction tr as [|ev tr IH]; intros c; cbn.
  - tauto.
  - destruct ev; cbn; rewrite IH; tauto.
Qed.

(** After any sequence of interactions from the start of a session, every
    [optimize] and every [resume] was called on the solver constructed last
    before the call, and the solver held is the one constructed last: a
    solver that was replaced is never called again. *)
Theorem calls_go_to_the_latest_solver (ws : list Widgets) (e : Env) :
  targets_latest None (trace (run_session ws (start_world e)))
  /\ fst <$> solver (session (run_session ws (start_world e)))
     = latest None (trace (run_session ws (start_world e))).
Proof.
  apply (session_induction
           (fun W => targets_latest None (trace W)
                     /\ fst <$> solver (session W) = latest None (trace W))).
  - cbn. split; reflexivity.
  - intros W w [Htr Hheld].
    destruct (rerun_cases w W)
      as [(Hs & Ht & _) | [(h' & model & Hsol & _ & _ & Ht & _)
                          | (i & h & h' & stop & Hsol0 & Hsol & _ & _ & Ht & _)]].
    + rewrite Hs, Ht. now split.
    + rewrite Hsol, Ht, latest_app, targets_latest_app. cbn.
      repeat split; assumption.
    + rewrite Hsol0 in Hheld. cbn in Hheld.
      rewrite Hsol, Ht, latest_app, targets_latest_app. cbn.
      repeat split; try assumption; now symmetry.
Qed.

Lemma rerun_idle (w : Widgets) (W : World) (f : float -> float) :
  getitem FUNCTIONS (kind w) = Some f ->
  starts_fresh w W = false ->
  resume_btn w = false ->
  rerun w W = (Ok tt, with_env (env_with_rng w (env W)) W).
Proof.
  intros Hf Hfresh Hres. unfold starts_fresh in Hfresh.
  apply orb_false_iff in Hfresh as [Hrun Hauto].
  unfold rerun. rewrite Hf.
  unfold bind, ret, in_env, default_rng, decide_run, get; cbn.
  rewrite Hrun, Hauto, Hres; cbn. reflexivity.
Qed.

(** A rerun with no button pressed, and with auto-run off or the stored
    configuration equal to the current one, calls nothing: the solver, the
    stored configuration and the result are what they were, and the only
    change is the generator the script builds on every run. *)
Theorem plain_rerun_changes_nothing (w : Widgets) (W : World)
    (f : float -> float) :
  getitem FUNCTIONS (kind w) = Some f ->
  run_btn w = false ->
  resume_btn w = false ->
  auto_run w && cfg_ne (cfg w) (last_cfg (session W)) = false ->
  exists W',
    rerun w W = (Ok tt, W')
    /\ session W' = session W
    /\ trace W' = trace W
    /\ next_id W' = next_id W
    /\ rngs (env W')
       = rngs (env W) ++ [{| gen_seed := seed w; gen_drawn := 0 |}].
Proof.
  intros Hf Hrun Hres Hauto.
  rewrite (rerun_idle w W f Hf) by
    (try exact Hres; unfold starts_fresh; now rewrite Hrun, Hauto).
  eexists. split; [reflexivity|]. now repeat split.
Qed.

(** With auto-run on, a configuration is run once: the rerun that follows
    with the same widget values and no button pressed calls nothing, whether
    the run before it completed or raised.  A failed run is not retried. *)
Theorem auto_run_does_not_repeat (w : Widgets) (W : World)
    (f : float -> float) :
  getitem FUNCTIONS (kind w) = Some f ->
  auto_run w = true ->
  run_btn w = false ->
  resume_btn w = false ->
  Cfg.eqb (cfg w) (cfg w) = true ->
  exists W2,
    rerun w (snd (rerun w W)) = (Ok tt, W2)
    /\ session W2 = session (snd (rerun w W))
    /\ trace W2 = trace (snd (rerun w W)).
Proof.
  intros Hf Hauto Hrun Hres Hrefl.
  assert (Hfresh1 : starts_fresh w (snd (rerun w W)) = false).
  { unfold starts_fresh. rewrite Hrun, Hauto. cbn.
    destruct (starts_fresh w W) eqn:Hfresh.
    - rewrite (rerun_fresh_last_cfg w W f Hf Hfresh). cbn. now rewrite Hrefl.
    - rewrite (rerun_not_fresh_last_cfg w W Hfresh).
      unfold starts_fresh in Hfresh. now rewrite Hrun, Hauto in Hfresh. }
  rewrite (rerun_idle w _ f Hf Hfresh1 Hres).
  eexists. split; [reflexivity|]. now split.
Qed.

(** Resume does not accumulate: a second Resume with the same widget values
    hands the held solver the very bundle the first one did, computed from
    the widgets and not from the limit the solver was last given. *)
Theorem repeated_resume_passes_the_same_bundle (w : Widgets) (W : World)
    (f : float -> float) (i : nat) (h : handle) :
  getitem FUNCTIONS (kind w) = Some f ->
  starts_fresh w W = false ->
  resume_btn w = true ->
  solver (session W) = Some (i, h) ->
  10 <= sampling_limit w <= 20000 ->
  exists stop,
    trace (snd (rerun w (snd (rerun w W))))
    = trace W ++ [CallResume i stop; CallResume i stop]
    /\ StopOption.sampling_limit stop
       = sampling_limit w + Z.max 100 (sampling_limit w / 2).
Proof.
  intros Hf Hfresh Hres Hs Hr.
  pose proof (new_stop_in_range w Hr) as Hstop.
  destruct (resume (StopOption.with_sampling_limit (stop_option w)
                      (sampling_limit w + Z.max 100 (sampling_limit w / 2)))
              (h, env_with_rng w (env W))) as [r [h' e']] eqn:Hcall.
  rewrite (rerun_resume w W f i h h' _ r e' Hf Hfresh Hres Hs Hstop Hcall).
  cbn [snd].
  destruct (resume (StopOption.with_sampling_limit (stop_option w)
                      (sampling_limit w + Z.max 100 (sampling_limit w / 2)))
              (h', env_with_rng w e')) as [r2 [h2 e2]] eqn:Hcall2.
  rewrite (rerun_resume w (world_resumed W i _ h' e') f i h' h2 _ r2 e2
             Hf Hfresh Hres eq_refl Hstop Hcall2).
  eexists. cbn. rewrite <- app_assoc. split; reflexivity.
Qed.

(** The chosen function is looked up before anything else: every key of
    [FUNCTIONS], which are the options of the select box, is found, and on
    any other name the script raises [KeyError] with that name and leaves
    the session, the environment and the calls as they were. *)
Theorem unknown_kind_raises_and_changes_nothing (w : Widgets) (W : World) :
  (In (kind w) (map fst FUNCTIONS) ->
   exists f, getitem FUNCTIONS (kind w) = Some f)
  /\ (~ In (kind w) (map fst FUNCTIONS) ->
      rerun w W = (Raise (KeyError (kind w)), W)).
Proof.
  assert (Hget : forall (V : Type) (d : list (string * V)) k,
             (In k (map fst d) -> exists v, getitem d k = Some v)
             /\ (~ In k (map fst d) -> getitem d k = None)).
  { intros V d k. induction d as [|[k' v] d [IHin IHout]]; cbn.
    - split; [intros []|reflexivity].
    - destruct (String.eqb k k') eqn:Hk.
      + split; [eauto|]. apply String.eqb_eq in Hk. intros Hn. exfalso. auto.
      + apply String.eqb_neq in Hk. split.
        * intros [Heq|Hin]; [congruence|auto].
        * intros Hn. apply IHout. tauto. }
  destruct (Hget _ FUNCTIONS (kind w)) as [Hin Hout]. split; [exact Hin|].
  intros Hn. unfold rerun. now rewrite (Hout Hn).
Qed.
End Sessions.


(** * The objective's draws, the curves and the figure *)

Section Draws.
Context `{Numpy}.

Lemma set_rngs_insert_twice (e : Env) (a : addr) (g1 g2 : Generator) :
  set_rngs (<[a := g2]> (rngs (set_rngs (<[a := g1]> (rngs e)) e)))
    (set_rngs (<[a := g1]> (rngs e)) e)
  = set_rngs (<[a := g2]> (rngs e)) e.
Proof. unfold set_rngs; cbn. now rewrite list_insert_insert_eq. Qed.

Lemma set_rngs_insert_same (e : Env) (a : addr) (g : Generator) :
  rngs e !! a = Some g -> set_rngs (<[a := advanced g 0]> (rngs e)) e = e.
Proof.
  intros Hg. rewrite advanced_0, list_insert_id by exact Hg. now destruct e.
Qed.

Lemma advanced_advanced (g : Generator) (j k : nat) :
  advanced (advanced g j) k = advanced g (j + k).
Proof. unfold advanced; cbn. f_equal. lia. Qed.

Lemma rng_normal_draws (rng : addr) (loc scale : float) (e : Env)
    (g : Generator) :
  rngs e !! rng = Some g ->
  rng_normal rng loc scale e
  = (Ok (loc + scale * standard_normal (gen_seed g) (gen_drawn g))%float,
     set_rngs (<[rng := advanced g 1]> (rngs e)) e).
Proof.
  intros Hg. unfold rng_normal. rewrite Hg. unfold advanced.
  now replace (gen_drawn g + 1)%nat with (S (gen_drawn g)) by lia.
Qed.

(** With noise, the calls of one search read consecutive positions of the
    stream of the generator the objective holds, one per call and in call
    order: the value of the call number [i] is the base function at its
    input plus [noise_std] times the variate at the generator's position
    plus [i], and the generator ends as many positions further as there
    were calls.  No two calls share a variate. *)
Theorem noisy_calls_read_consecutive_variates (o : Objective)
    (xs : list float) (e : Env) (g : Generator) :
  (0 <? obj_noise_std o)%float = true ->
  rngs e !! obj_rng o = Some g ->
  calls o xs e
  = (Ok (imap (fun i x =>
                 (obj_f o x
                  + (0 + obj_noise_std o
                         * standard_normal (gen_seed g) (gen_drawn g + i)))%float)
           xs),
     set_rngs (<[obj_rng o := advanced g (length xs)]> (rngs e)) e).
Proof.
  intros Hnoise. revert e g.
  induction xs as [|x xs IH]; intros e g Hg.
  - cbn [calls imap length]. unfold ret. now rewrite set_rngs_insert_same.
  - cbn [calls]. unfold bind at 1. cbn [objective].
    rewrite (noisy_eval_draws _ _ _ _ _ g Hnoise Hg).
    pose proof (lookup_lt_Some _ _ _ Hg) as Hlt.
    unfold bind at 1.
    rewrite (IH _ (advanced g 1)).
    2: { cbn. rewrite list_lookup_insert_eq by exact Hlt.
         unfold advanced. do 2 f_equal. lia. }
    unfold ret. f_equal.
    + rewrite imap_cons. cbn [gen_seed gen_drawn advanced].
      rewrite Nat.add_0_r. do 2 f_equal.
      apply imap_ext. intros i y _. cbn.
      now replace (gen_drawn g + 1 + i)%nat with (gen_drawn g + S i)%nat by lia.
    + replace {| gen_seed := gen_seed g; gen_drawn := S (gen_drawn g) |}
        with (advanced g 1) by (unfold advanced; f_equal; lia).
      rewrite set_rngs_insert_twice, advanced_advanced. reflexivity.
Qed.

Lemma rng_normal_array_draws (rng : addr) (loc scale : float) (n : nat) :
  forall (e : Env) (g : Generator),
  rngs e !! rng = Some g ->
  rng_normal_array rng loc scale n e
  = (Ok (map (fun i => (loc + scale
                              * standard_normal (gen_seed g) (gen_drawn g + i))%float)
           (seq 0 n)),
     set_rngs (<[rng := advanced g n]> (rngs e)) e).
Proof.
  induction n as [|n IH]; intros e g Hg.
  - cbn [rng_normal_array seq map]. unfold ret. now rewrite set_rngs_insert_same.
  - cbn [rng_normal_array]. unfold bind at 1.
    rewrite (rng_normal_draws _ _ _ _ g Hg).
    pose proof (lookup_lt_Some _ _ _ Hg) as Hlt.
    unfold bind at 1.
    rewrite (IH _ (advanced g 1))
      by (cbn; now rewrite list_lookup_insert_eq by exact Hlt).
    unfold ret. f_equal.
    + cbn [seq map]. rewrite Nat.add_0_r. do 2 f_equal.
      rewrite <- seq_shift, map_map. apply map_ext. intros i.
      cbn [gen_seed gen_drawn advanced].
      now replace (gen_drawn g + 1 + i)%nat with (gen_drawn g + S i)%nat by lia.
    + rewrite set_rngs_insert_twice, advanced_advanced. reflexivity.
Qed.

Lemma length_linspace (start stop : float) (num : nat) :
  length (linspace start stop num) = num.
Proof.
  unfold linspace.
  destruct (1 <? num)%nat; destruct (0 <? num - 1)%nat;
    try destruct (_ =? _)%float;
    rewrite ?length_insert, !length_map, length_seq; reflexivity.
Qed.

Lemma curve_without_noise (f : float -> float) (xmin xmax sigma : float)
    (seed : Z) (e : Env) :
  (0 <? sigma)%float = false ->
  curve f xmin xmax sigma seed e
  = (Ok (linspace xmin xmax 600, map f (linspace xmin xmax 600)), e).
Proof. intros Hs. unfold curve. now rewrite Hs. Qed.

Lemma curve_with_noise (f : float -> float) (xmin xmax sigma : float)
    (seed : Z) (e : Env) :
  (0 <? sigma)%float = true ->
  curve f xmin xmax sigma seed e
  = (Ok (linspace xmin xmax 600,
         zip_with PrimFloat.add (map f (linspace xmin xmax 600))
           (map (fun i => (0 + sigma * standard_normal seed i)%float)
              (seq 0 600))),
     set_rngs (rngs e ++ [{| gen_seed := seed; gen_drawn := 600 |}]) e).
Proof.
  intros Hs. unfold curve. rewrite Hs.
  unfold bind at 1. unfold default_rng.
  unfold bind at 1. unfold np_apply.
  rewrite length_map, length_linspace.
  rewrite (rng_normal_array_draws _ _ _ _ _ {| gen_seed := seed; gen_drawn := 0 |})
    by (cbn [rngs set_rngs]; rewrite lookup_app_r, Nat.sub_diag by lia;
        reflexivity).
  unfold ret. f_equal.
  unfold set_rngs. cbn [rngs wall ticks]. f_equal.
  rewrite insert_app_r_alt, Nat.sub_diag by lia. reflexivity.
Qed.
End Draws.

Section Figures.
Context `{Numpy} `{PyDDSBB Objective}.

(** The visualisation never changes what the controller keeps: the solver,
    the stored configuration, the result, the calls and the clock are as
    they were, and no generator that existed is drawn from.  With noise it
    builds one generator of its own from the seed and draws 600 variates
    from it; without noise it builds none. *)
Theorem visualization_leaves_the_session_alone (w : Widgets) (W : World)
    (f : float -> float) :
  getitem FUNCTIONS (kind w) = Some f ->
  exists fig W',
    visualization w W = (Ok fig, W')
    /\ session W' = session W
    /\ trace W' = trace W
    /\ next_id W' = next_id W
    /\ ticks (env W') = ticks (env W)
    /\ rngs (env W')
       = rngs (env W)
         ++ (if (0 <? noise_std w)%float
             then [{| gen_seed := seed w; gen_drawn := 600 |}]
             else []).
Proof.
  intros Hf. unfold visualization. rewrite Hf.
  unfold bind at 1. unfold ret at 1.
  unfold bind at 1. unfold in_env at 1.
  rewrite curve_without_noise by reflexivity.
  unfold bind at 1. unfold in_env at 1. cbn [env].
  destruct (0 <? noise_std w)%float eqn:Hnoise.
  - rewrite curve_with_noise by exact Hnoise.
    eexists _, _. split; [reflexivity|]. cbn [session trace next_id env].
    now repeat split.
  - rewrite curve_without_noise by exact Hnoise.
    eexists _, _. split; [reflexivity|]. cbn [session trace next_id env].
    rewrite app_nil_r. now repeat split.
Qed.

(** The figure has the true curve first and the observed curve second, both
    over the same 600 abscissas; the observed ordinates are the true ones
    when [noise_std] is not positive, and otherwise the true ones plus
    [noise_std] times the first 600 variates of the seed's stream; the
    optimum is marked exactly when a result is stored, at the stored
    values. *)
Theorem figure_shows_the_curves_and_the_stored_result (w : Widgets)
    (W : World) (f : float -> float) :
  getitem FUNCTIONS (kind w) = Some f ->
  exists fig xs,
    fst (visualization w W) = Ok fig
    /\ xs = linspace (x_min w) (x_max w) 600
    /\ length xs = 600%nat
    /\ fig_traces fig
       = [Lines "True f(x)" xs (map f xs);
          Lines "Observed f(x)" xs
            (if (0 <? noise_std w)%float
             then zip_with PrimFloat.add (map f xs)
                    (map (fun i => (0 + noise_std w
                                        * standard_normal (seed w) i)%float)
                       (seq 0 600))
             else map f xs)]
         ++ match result (session W) with
            | Some r => [Markers "PyDDSBB optimum" [xopt r] [yopt r]]
            | None => []
            end.
Proof.
  intros Hf. unfold visualization. rewrite Hf.
  unfold bind at 1. unfold ret at 1.
  unfold bind at 1. unfold in_env at 1.
  rewrite curve_without_noise by reflexivity.
  unfold bind at 1. unfold in_env at 1. cbn [env].
  destruct (0 <? noise_std w)%float eqn:Hnoise.
  - rewrite curve_with_noise by exact Hnoise.
    eexists _, _. split; [reflexivity|].
    split; [reflexivity|]. split; [apply length_linspace|].
    cbn [session fst snd]. unfold make_plot. cbn [fig_traces].
    now destruct (result (session W)).
  - rewrite curve_without_noise by exact Hnoise.
    eexists _, _. split; [reflexivity|].
    split; [reflexivity|]. split; [apply length_linspace|].
    cbn [session fst snd]. unfold make_plot. cbn [fig_traces].
    now destruct (result (session W)).
Qed.
End Figures.

(** * The fitting demo *)

Section FitDemo.
Context `{Numpy}.

(** On every name the two demos share, [true_function] of the fitting demo
    is, elementwise, the function the minimisation demo keeps under that name
    in [FUNCTIONS].  The first entry of [FUNCTIONS] is left out: it has no
    counterpart. *)
Theorem true_function_agrees_with_FUNCTIONS (x : list float) (kind : string)
    (f : float -> float) :
  getitem FUNCTIONS kind = Some f ->
  kind <> "x * Sin(sin(2πx))"%string ->
  true_function x kind = np_apply f x.
Proof.
  intros Hf Hne. unfold FUNCTIONS in Hf. cbn [getitem] in Hf.
  repeat match type of Hf with
         | (if String.eqb kind ?k then _ else _) = _ =>
             let E := fresh "E" in
             destruct (String.eqb kind k) eqn:E;
             [apply String.eqb_eq in E; subst kind;
              injection Hf as <-; try reflexivity; now exfalso|]
         end.
  discriminate.
Qed.

(** [true_function] never fails and keeps the length of its input; on every
    name that is not one of its six, the linear one included, it is the
    linear function. *)
Theorem true_function_falls_back_to_linear (x : list float) (kind : string) :
  length (true_function x kind) = length x
  /\ (~ In kind ["Sine (sin(2πx))"; "Sine (sin(3x) + 0.5 sin(7x))";
                 "Polynomial (x^3 - 0.5x^2 + 0.2x)"; "Gaussian bump";
                 "Piecewise (abs(x - 0.5))";
                 "Rational (x^2 + 10x) / (1 + x^2)"]%string ->
      true_function x kind = map f_linear x).
Proof.
  split.
  - unfold true_function.
    repeat match goal with
           | |- context [String.eqb kind ?k] => destruct (String.eqb kind k)
           end; apply length_map.
  - intros Hn. unfold true_function.
    repeat match goal with
           | |- context [String.eqb kind ?k] =>
               let E := fresh "E" in
               destruct (String.eqb kind k) eqn:E;
               [apply String.eqb_eq in E; exfalso; apply Hn; subst kind;
                cbn; tauto|]
           end.
    reflexivity.
Qed.

(** Every model family of [MODEL_ZOO] comes with as many parameter names as
    its function unpacks: the function accepts exactly the parameter vectors
    of that length, and then returns one prediction per input point; on any
    other length it raises. *)
Theorem model_zoo_functions_take_their_named_parameters (name : string)
    (fn : list float -> list float -> option (list float))
    (names : list string) (x theta : list float) :
  In (name, (fn, names)) MODEL_ZOO ->
  (length theta = length names ->
   exists y, fn x theta = Some y /\ length y = length x)
  /\ (length theta <> length names -> fn x theta = None).
Proof.
  intros Hin. unfold MODEL_ZOO in Hin. cbn [In] in Hin.
  destruct Hin as [Heq|[Heq|[Heq|[]]]]; injection Heq as <- <- <-;
    (split; [intros Hlen | intros Hlen]).
  - destruct theta as [|a0 [|a1 [|a2 [|a3 [|]]]]]; try discriminate.
    eexists. split; [reflexivity|apply length_map].
  - destruct theta as [|a0 [|a1 [|a2 [|a3 [|]]]]]; try reflexivity.
    now exfalso.
  - destruct theta as [|a [|b [|c [|]]]]; try discriminate.
    eexists. split; [reflexivity|apply length_map].
  - destruct theta as [|a [|b [|c [|]]]]; try reflexivity.
    now exfalso.
  - destruct theta as [|a1 [|m1 [|s1 [|a2 [|m2 [|s2 [|]]]]]]]; try discriminate.
    eexists. split; [reflexivity|apply length_map].
  - destruct theta as [|a1 [|m1 [|s1 [|a2 [|m2 [|s2 [|]]]]]]]; try reflexivity.
    now exfalso.
Qed.

Lemma sidebar_bounds_map (value : string -> float) (names : list string) :
  sidebar_bounds value names
  = map (fun p => (value ("lb_" ++ p)%string, value ("ub_" ++ p)%string)) names.
Proof.
  unfold sidebar_bounds.
  assert (Hgen : forall acc,
             fold_left (fun bounds p =>
                          bounds ++ [(value ("lb_" ++ p)%string,
                                      value ("ub_" ++ p)%string)]) names acc
             = acc ++ map (fun p => (value ("lb_" ++ p)%string,
                                     value ("ub_" ++ p)%string)) names).
  { induction names as [|p names IH]; intros acc; cbn.
    - now rewrite app_nil_r.
    - now rewrite IH, <- app_assoc. }
  apply Hgen.
Qed.

(** For every model family, the problem the fitting demo builds from the
    sidebar has one variable per parameter name, bounded by the two inputs
    keyed by that name, in the order of the names; so the model function
    accepts every point that has one coordinate per variable. *)
Theorem fit_problem_has_one_variable_per_parameter (name : string)
    (fn : list float -> list float -> option (list float))
    (names : list string) (value : string -> float) (X y theta : list float)
    (fn' : list float -> list float -> list float) :
  In (name, (fn, names)) MODEL_ZOO ->
  prob_variables (fit_model X y fn' (sidebar_bounds value names))
  = map (fun p => (value ("lb_" ++ p)%string, value ("ub_" ++ p)%string)) names
  /\ (length theta
      = length (prob_variables (fit_model X y fn' (sidebar_bounds value names))) ->
      is_Some (fn X theta)).
Proof.
  intros Hin.
  assert (Hv : prob_variables (fit_model X y fn' (sidebar_bounds value names))
               = map (fun p => (value ("lb_" ++ p)%string,
                                value ("ub_" ++ p)%string)) names).
  { unfold fit_model.
    destruct (add_variables_bounds (sidebar_bounds value names)
                (add_objective Problem_new
                   {| fit_X := X; fit_y := y; fit_model_fn := fn' |} "minimize"))
      as [Hb _].
    rewrite Hb. cbn. apply sidebar_bounds_map. }
  split; [exact Hv|].
  rewrite Hv, length_map. intros Hlen.
  unfold MODEL_ZOO in Hin. cbn [In] in Hin.
  destruct Hin as [Heq|[Heq|[Heq|[]]]]; injection Heq as <- <- <-.
  - destruct theta as [|a0 [|a1 [|a2 [|a3 [|]]]]]; try discriminate.
    eexists; reflexivity.
  - destruct theta as [|a [|b [|c [|]]]]; try discriminate.
    eexists; reflexivity.
  - destruct theta as [|a1 [|m1 [|s1 [|a2 [|m2 [|s2 [|]]]]]]]; try discriminate.
    eexists; reflexivity.
Qed.
End FitDemo.

Section FitRun.
Context `{PyDDSBB FitObjective}.

(** [run_pyddsbb] masks nothing: what [optimize] raises leaves the function
    unchanged, and so does what an accessor raises; when all three calls
    return, the result holds the whole best point, the best value, and the
    difference between the clock reading once [optimize] is over and the
    reading before it. *)
Theorem fit_run_returns_or_propagates (X y : list float)
    (model_fn : list float -> list float -> list float)
    (var_bounds : list (float * float)) (n_init : Z)
    (split_method variable_selection : string) (multifidelity : bool)
    (stop : StopOption.t) (e : Env) (tr : list (Event FitObjective))
    (r : Res unit) (h' : handle) (e' : Env) :
  optimize (fit_model X y model_fn var_bounds)
    (DDSBB n_init split_method variable_selection multifidelity stop None,
     set_ticks (S (ticks e)) e) = (r, (h', e')) ->
  (forall ex, r = Raise ex ->
     fst (run_pyddsbb X y model_fn var_bounds n_init split_method
            variable_selection multifidelity stop (e, tr)) = Raise ex)
  /\ (forall ex, r = Ok tt -> get_optimizer h' = Raise ex ->
        fst (run_pyddsbb X y model_fn var_bounds n_init split_method
               variable_selection multifidelity stop (e, tr)) = Raise ex)
  /\ (forall ex theta, r = Ok tt ->
        get_optimizer h' = Ok theta -> get_optimum h' = Raise ex ->
        fst (run_pyddsbb X y model_fn var_bounds n_init split_method
               variable_selection multifidelity stop (e, tr)) = Raise ex)
  /\ (forall theta obj, r = Ok tt ->
        get_optimizer h' = Ok theta -> get_optimum h' = Ok obj ->
        fst (run_pyddsbb X y model_fn var_bounds n_init split_method
               variable_selection multifidelity stop (e, tr))
        = Ok {| theta_opt := theta; obj_opt := obj;
                train_time := (wall e' (ticks e') - wall e (ticks e))%float |}).
Proof.
  intros Ho. unfold run_pyddsbb. rewrite Ho.
  split; [|split; [|split]].
  - intros ex ->. reflexivity.
  - intros ex -> Hx. now rewrite Hx.
  - intros ex theta -> Hx Hy. now rewrite Hx, Hy.
  - intros theta obj -> Hx Hy. now rewrite Hx, Hy.
Qed.
End FitRun.

(** * Concrete runs of what the sections above cover *)

Section MoreConcreteRuns.
#[local] Existing Instance Stub.numpy.
#[local] Existing Instance Stub.solver.
#[local] Open Scope float_scope.

Lemma plain_rerun_witness :
  exists W',
    rerun Stub.widgets (after_run Stub.widgets) = (Ok tt, W')
    /\ session W' = session (after_run Stub.widgets)
    /\ trace W' = trace (after_run Stub.widgets).
Proof.
  destruct (plain_rerun_changes_nothing Stub.widgets (after_run Stub.widgets)
              f_linear eq_refl eq_refl eq_refl eq_refl)
    as (W' & Hrun & Hs & Ht & _).
  exists W'. now repeat split.
Defined.

Lemma auto_run_does_not_repeat_witness :
  exists W2,
    rerun w_auto (snd (rerun w_auto Stub.world0)) = (Ok tt, W2)
    /\ trace W2 = trace (snd (rerun w_auto Stub.world0)).
Proof.
  destruct (auto_run_does_not_repeat w_auto Stub.world0 f_linear
              eq_refl eq_refl eq_refl eq_refl eq_refl)
    as (W2 & Hrun & _ & Ht).
  exists W2. now split.
Defined.

Lemma repeated_resume_witness :
  exists stop,
    trace (snd (rerun (press_resume Stub.widgets) (after_resume Stub.widgets)))
    = trace (after_run Stub.widgets)
      ++ [CallResume 0 stop; CallResume 0 stop]
    /\ StopOption.sampling_limit stop = 1200%Z.
Proof.
  assert (Hheld : exists h, solver (session (after_run Stub.widgets)) = Some (0%nat, h))
    by (eexists; vm_compute; reflexivity).
  destruct Hheld as [h Hheld].
  destruct (repeated_resume_passes_the_same_bundle (press_resume Stub.widgets)
              (after_run Stub.widgets) f_linear 0 h eq_refl eq_refl eq_refl
              Hheld ltac:(cbn; lia))
    as (stop & Htr & Hlim).
  exists stop. split; [exact Htr|]. rewrite Hlim. reflexivity.
Defined.

(** An environment with one generator of seed 42 that has been drawn from
    three times. *)
Lemma noisy_calls_witness :
  calls {| obj_f := f_linear; obj_noise_std := 0.25; obj_rng := 0%nat |}
    [-1; 1]
    {| wall := wall Stub.env0; ticks := 0;
       rngs := [{| gen_seed := 42; gen_drawn := 3 |}] |}
  = (Ok [-2.875; 1.15625],
     {| wall := wall Stub.env0; ticks := 0;
        rngs := [{| gen_seed := 42; gen_drawn := 5 |}] |}).
Proof.
  rewrite (noisy_calls_read_consecutive_variates
             {| obj_f := f_linear; obj_noise_std := 0.25; obj_rng := 0%nat |}
             [-1; 1]
             {| wall := wall Stub.env0; ticks := 0;
                rngs := [{| gen_seed := 42; gen_drawn := 3 |}] |}
             {| gen_seed := 42; gen_drawn := 3 |} eq_refl eq_refl).
  reflexivity.
Defined.

Lemma visualization_witness :
  exists fig W',
    visualization w_noisy (after_run w_noisy) = (Ok fig, W')
    /\ session W' = session (after_run w_noisy)
    /\ rngs (env W')
       = [{| gen_seed := 42; gen_drawn := 10 |};
          {| gen_seed := 42; gen_drawn := 600 |}].
Proof.
  destruct (visualization_leaves_the_session_alone w_noisy (after_run w_noisy)
              f_linear eq_refl)
    as (fig & W' & Hv & Hs & _ & _ & _ & Hr).
  exists fig, W'. split; [exact Hv|]. split; [exact Hs|].
  rewrite Hr. vm_compute. reflexivity.
Defined.

Lemma figure_witness :
  exists fig,
    fst (visualization Stub.widgets (after_run Stub.widgets)) = Ok fig
    /\ length (fig_traces fig) = 3%nat
    /\ fig_traces fig !! 2%nat = Some (Markers "PyDDSBB optimum" [-1] [-3]).
Proof.
  destruct (figure_shows_the_curves_and_the_stored_result Stub.widgets
              (after_run Stub.widgets) f_linear eq_refl)
    as (fig & xs & Hv & _ & _ & Ht).
  exists fig. split; [exact Hv|].
  assert (Hres : result (session (after_run Stub.widgets))
                 = Some {| xopt := -1; yopt := -3; elapsed := 81 |})
    by (vm_compute; reflexivity).
  rewrite Hres in Ht. rewrite Ht. split; reflexivity.
Defined.

Lemma true_function_agrees_witness :
  true_function [0.5; 2] "Piecewise (abs(x - 0.5))" = [0; 1.5].
Proof.
  rewrite (true_function_agrees_with_FUNCTIONS [0.5; 2]
             "Piecewise (abs(x - 0.5))" f_piecewise eq_refl)
    by discriminate.
  reflexivity.
Defined.

Lemma model_zoo_witness :
  model_rational [1; 2] [1; 0; 0] = Some [1 / (1.0 + 0 * 1 + 1e-8);
                                          4 / (1.0 + 0 * 4 + 1e-8)]
  /\ model_rational [1; 2] [1; 0] = None.
Proof.
  destruct (model_zoo_functions_take_their_named_parameters
              "Rational ( (a x^2 + b x) / (1 + c x^2) )" model_rational
              ["a"; "b"; "c"]%string [1; 2] [1; 0; 0]
              ltac:(right; left; reflexivity)) as [Hok _].
  destruct (model_zoo_functions_take_their_named_parameters
              "Rational ( (a x^2 + b x) / (1 + c x^2) )" model_rational
              ["a"; "b"; "c"]%string [1; 2] [1; 0]
              ltac:(right; left; reflexivity)) as [_ Hbad].
  split; [|apply Hbad; discriminate].
  destruct (Hok eq_refl) as (y & Hy & _). vm_compute. reflexivity.
Defined.

Lemma fit_problem_witness :
  prob_variables
    (fit_model [] [] (fun _ _ => [])
       (sidebar_bounds (fun k => if String.prefix "lb_" k then -2 else 2)
          ["a"; "b"; "c"]%string))
  = [(-2, 2); (-2, 2); (-2, 2)].
Proof.
  destruct (fit_problem_has_one_variable_per_parameter
              "Rational ( (a x^2 + b x) / (1 + c x^2) )" model_rational
              ["a"; "b"; "c"]%string
              (fun k => if String.prefix "lb_" k then -2 else 2)
              [] [] [] (fun _ _ => [])
              ltac:(right; left; reflexivity)) as [Hv _].
  rewrite Hv. reflexivity.
Defined.

Lemma fit_run_witness :
  fst (@run_pyddsbb Stub.corner [] [] (fun _ _ => []) [(-2, 2); (0, 1)] 5
         "equal_bisection" "longest_side" false (stop_option Stub.widgets)
         (Stub.env0, []))
  = Ok {| theta_opt := [-2; 0]; obj_opt := 0; train_time := 0.25 |}.
Proof.
  pose (X := @optimize _ Stub.corner
               (fit_model [] [] (fun _ _ => []) [(-2, 2); (0, 1)])
               (@DDSBB _ Stub.corner 5 "equal_bisection" "longest_side" false
                  (stop_option Stub.widgets) None,
                set_ticks (S (ticks Stub.env0)) Stub.env0)).
  destruct (@fit_run_returns_or_propagates Stub.corner [] []
              (fun _ _ => []) [(-2, 2); (0, 1)] 5 "equal_bisection"
              "longest_side" false (stop_option Stub.widgets) Stub.env0 []
              (fst X) (fst (snd X)) (snd (snd X)) (triple_eta X))
    as (_ & _ & _ & Hok).
  rewrite (Hok [-2; 0] 0 eq_refl eq_refl eq_refl).
  vm_compute. reflexivity.
Defined.
End MoreConcreteRuns.

